(** * MSCoRe adapter and temporal reasoning agent: a shallow embedding

    The development follows the two source files

      - [code/mscore_adapter.py]                       (module [Adapter])
      - [code/new_agents/temporal_reasoning_agent.py]  (module [Temporal])

    and the parts of the Python runtime they call: [str] methods
    (module [Py]), the [re] module (module [Re]) and [datetime]
    (module [Datetime]).

    Conventions.
      - A Python [str] is a Rocq [string].  The model is exact for text
        made of ASCII characters (code points below 128); a byte above
        127 is treated as a character that is no digit, no white space,
        no word character and that [lower] leaves alone.  Keywords of
        the source that are not ASCII are kept as their UTF-8 bytes.
      - A Python [int] is a [Z]; a Python [float] is a binary64
        [float], so [0.7 + 0.2] rounds as it does in Python.
      - [None] is [None]; a value that is [str] or [None] is an
        [option string].
      - A call that may raise returns a [res]: [Ok v] or [Raise e];
        the messages of the exceptions are those of CPython 3.12.
      - A dictionary is a [gmap] on its keys; an object with mutable
        fields is passed in and returned (explicit state), and what
        [logging] records is kept as a list. *)

From Stdlib Require Import ZArith Ascii String List Bool Lia.
From Stdlib Require Import DecimalString Floats.PrimFloat.
From stdpp Require Import gmap strings.

Import ListNotations.
Local Open Scope string_scope.
Local Open Scope Z_scope.

(* ================================================================== *)
(** * Python values: exceptions, results, characters, strings         *)
(* ================================================================== *)

Module Py.

(** The exception classes the two files can meet, with the argument
    that [str(e)] prints. *)
Inductive exn : Type :=
| ValueError (msg : string)
| OverflowError (msg : string)
| TypeError (msg : string)
| AttributeError (msg : string)
| KeyError (key : string)
| OSError (msg : string)
| JSONDecodeError (msg : string).

(** [str(e)]; for a [KeyError] that is the [repr] of the key. *)
Definition str_exn (e : exn) : string :=
  match e with
  | ValueError m | OverflowError m | TypeError m | AttributeError m
  | OSError m | JSONDecodeError m => m
  | KeyError k => "'" ++ k ++ "'"
  end.

(** The outcome of a call: a value or a raised exception. *)
Inductive res (A : Type) : Type :=
| Ok (a : A)
| Raise (e : exn).
Arguments Ok {A} a.
Arguments Raise {A} e.

Definition bind {A B : Type} (m : res A) (k : A -> res B) : res B :=
  match m with
  | Ok a => k a
  | Raise e => Raise e
  end.

Definition code (a : ascii) : N := N_of_ascii a.

Definition between (lo hi : N) (a : ascii) : bool :=
  ((lo <=? code a) && (code a <=? hi))%N.

(** [\d] *)
Definition is_digit (a : ascii) : bool := between 48 57 a.

Definition is_upper (a : ascii) : bool := between 65 90 a.

Definition is_lower (a : ascii) : bool := between 97 122 a.

(** [\w]: letters, digits and the underscore. *)
Definition is_word (a : ascii) : bool :=
  is_digit a || is_upper a || is_lower a || (code a =? 95)%N.

(** [\s]: tab, line feed, vertical tab, form feed, carriage return,
    the four separators 28..31 and the space. *)
Definition is_space (a : ascii) : bool :=
  between 9 13 a || between 28 31 a || (code a =? 32)%N.

Definition lower_char (a : ascii) : ascii :=
  if is_upper a then ascii_of_N (code a + 32) else a.

(** [s.lower()] *)
Fixpoint lower (s : string) : string :=
  match s with
  | EmptyString => EmptyString
  | String a s' => String (lower_char a) (lower s')
  end.

(** [needle in hay] on two [str] *)
Fixpoint contains (needle hay : string) : bool :=
  String.prefix needle hay ||
  match hay with
  | EmptyString => false
  | String _ hay' => contains needle hay'
  end.

(** [any(word in text for word in words)] *)
Definition any_in (words : list string) (text : string) : bool :=
  existsb (fun w => contains w text) words.

Definition digit_val (a : ascii) : Z := Z.of_N (code a) - 48.

Fixpoint int_acc (acc : Z) (s : string) : Z :=
  match s with
  | EmptyString => acc
  | String a s' => int_acc (10 * acc + digit_val a) s'
  end.

(** The value of a text of decimal digits. *)
Definition int_value (s : string) : Z := int_acc 0 s.

(** The interpreter's limit on the length of a text it converts to an
    [int] (the default of [sys.set_int_max_str_digits]). *)
Definition MAX_STR_DIGITS : Z := 4300.

(** [int(s)] for a text of decimal digits, the only texts the agent
    converts (they are captured by [\d] groups): a text longer than
    the limit raises. *)
Definition int (s : string) : res Z :=
  if MAX_STR_DIGITS <? Z.of_nat (String.length s) then
    Raise (ValueError
             "Exceeds the limit (4300 digits) for integer string conversion")
  else Ok (int_value s).

(** [str(n)] and [f"{n}"] for an [int] *)
Definition str_int (n : Z) : string := NilZero.string_of_int (Z.to_int n).

Fixpoint zeros (n : nat) : string :=
  match n with
  | O => EmptyString
  | S n' => String "0" (zeros n')
  end.

(** [n] printed in at least [width] digits, padded with zeros
    ([%d] and [%Y] of [strftime]); [n] is never negative there. *)
Definition zero_pad (width : nat) (n : Z) : string :=
  let s := str_int n in
  zeros (width - String.length s) ++ s.

(** [sep.join(parts)] *)
Fixpoint join (sep : string) (parts : list string) : string :=
  match parts with
  | [] => EmptyString
  | [p] => p
  | p :: rest => p ++ sep ++ join sep rest
  end.

End Py.

Notation "x <- m ;; k" := (Py.bind m (fun x => k))
  (at level 100, m at next level, right associativity).

(* ================================================================== *)
(** * The [re] module: a backtracking matcher                         *)
(* ================================================================== *)

Module Re.
Import Py.

(** The pattern constructs the agent uses.  Every repetition in its
    patterns repeats one character class, so [Rep] takes the class. *)
Inductive regex : Type :=
| Bnd                                           (* \b *)
| Cls (c : ascii -> bool)                       (* \d, [/-]: one character *)
| Lit (l : string)                              (* literal text *)
| Rep (c : ascii -> bool) (lo : nat) (hi : option nat)
                                                (* c{lo,hi}, c+, c?: greedy *)
| Cat (r1 r2 : regex)                           (* r1 r2 *)
| Alt (r1 r2 : regex)                           (* r1|r2 *)
| Grp (r : regex).                              (* (r) *)

(** What a successful match reports: [m.groups()] in the order in
    which the groups close, and the number of characters matched. *)
Record rmatch : Type := MkMatch { groups : list string; width : nat }.

(** [\b] holds between a word character and a character that is not
    one, the two ends of the text counting as not one. *)
Definition word_before (prev : option ascii) : bool :=
  match prev with
  | Some a => is_word a
  | None => false
  end.

Definition word_after (s : string) : bool :=
  match s with
  | String a _ => is_word a
  | EmptyString => false
  end.

Definition at_boundary (prev : option ascii) (s : string) : bool :=
  negb (Bool.eqb (word_before prev) (word_after s)).

(** The position [n] characters further on: the character before it
    and the text from it. *)
Fixpoint advance (n : nat) (prev : option ascii) (s : string)
  : option ascii * string :=
  match n, s with
  | S n', String a s' => advance n' (Some a) s'
  | _, _ => (prev, s)
  end.

(** The first [n] characters of [s]. *)
Fixpoint take (n : nat) (s : string) : string :=
  match n, s with
  | S n', String a s' => String a (take n' s')
  | _, _ => EmptyString
  end.

(** The text between the position with rest [s] and a later one with
    rest [s']. *)
Definition taken (s s' : string) : string :=
  take (String.length s - String.length s') s.

Definition room (hi : option nat) : bool :=
  match hi with
  | Some O => false
  | _ => true
  end.

Definition less (hi : option nat) : option nat :=
  match hi with
  | Some n => Some (Nat.pred n)
  | None => None
  end.

(** How many characters of class [c] stand at the head of [s], at
    most [hi] of them. *)
Fixpoint span (c : ascii -> bool) (hi : option nat) (s : string) : nat :=
  match s with
  | String a s' =>
      if room hi && c a then S (span c (less hi) s') else O
  | EmptyString => O
  end.

(** Greedy repetition: the longest count first, then one less at a
    time down to [lo]. *)
Fixpoint rep_try {A : Type} (try : nat -> option A) (lo j : nat)
  : option A :=
  if (j <? lo)%nat then None
  else match try j with
       | Some x => Some x
       | None => match j with
                 | S j' => rep_try try lo j'
                 | O => None
                 end
       end.

Section Matcher.
Context {A : Type}.

(** [run r prev s caps k]: match [r] at the position with rest [s]
    (the character before it is [prev]), then go on with [k]; when
    [k] fails the matcher backtracks into [r]. *)
Fixpoint run (r : regex) (prev : option ascii) (s : string)
    (caps : list string)
    (k : option ascii -> string -> list string -> option A) : option A :=
  match r with
  | Bnd => if at_boundary prev s then k prev s caps else None
  | Cls c =>
      match s with
      | String a s' => if c a then k (Some a) s' caps else None
      | EmptyString => None
      end
  | Lit l =>
      if String.prefix l s
      then let '(p', s') := advance (String.length l) prev s in k p' s' caps
      else None
  | Rep c lo hi =>
      rep_try (fun j => let '(p', s') := advance j prev s in k p' s' caps)
              lo (span c hi s)
  | Cat r1 r2 =>
      run r1 prev s caps (fun p' s' caps' => run r2 p' s' caps' k)
  | Alt r1 r2 =>
      match run r1 prev s caps k with
      | Some x => Some x
      | None => run r2 prev s caps k
      end
  | Grp r1 =>
      run r1 prev s caps
          (fun p' s' caps' => k p' s' (caps' ++ [taken s s'])%list)
  end.

End Matcher.

(** A match of [r] that starts at the position with rest [s]. *)
Definition match_at (r : regex) (prev : option ascii) (s : string)
  : option rmatch :=
  run r prev s []
      (fun _ s' caps =>
         Some (MkMatch caps (String.length s - String.length s'))).

(** The leftmost position from [s] on where [r] matches. *)
Fixpoint scan (r : regex) (prev : option ascii) (s : string)
  : option rmatch :=
  match match_at r prev s with
  | Some m => Some m
  | None =>
      match s with
      | String a s' => scan r (Some a) s'
      | EmptyString => None
      end
  end.

(** [re.search(r, s)] *)
Definition search (r : regex) (s : string) : option rmatch :=
  scan r None s.

(** The matches of [r] from [s] on, left to right and not
    overlapping: [skip] counts the characters of the last match that
    are still to be passed.  (The patterns of the agent match no empty
    text.) *)
Fixpoint collect (r : regex) (skip : nat) (prev : option ascii)
    (s : string) : list (list string) :=
  let next (sk : nat) :=
    match s with
    | String a s' => collect r sk (Some a) s'
    | EmptyString => []
    end in
  match skip with
  | S sk => next sk
  | O =>
      match match_at r prev s with
      | Some m => groups m :: next (Nat.pred (width m))
      | None => next O
      end
  end.

(** [re.findall(r, s)] for a pattern with several groups: the
    [groups()] of each match. *)
Definition findall (r : regex) (s : string) : list (list string) :=
  collect r O None s.

(** [m.group(i)], groups counted from 1. *)
Definition group (i : nat) (m : rmatch) : string :=
  nth (Nat.pred i) (groups m) EmptyString.

Declare Scope regex_scope.
Delimit Scope regex_scope with re.
Bind Scope regex_scope with regex.
Infix ">>" := Cat (at level 60, right associativity) : regex_scope.

End Re.

(* ================================================================== *)
(** * What it means for a pattern to match                            *)
(* ================================================================== *)

Module ReSem.
Import Py Re.

(** Every character of [t] is in the class [c]. *)
Fixpoint all_in (c : ascii -> bool) (t : string) : bool :=
  match t with
  | EmptyString => true
  | String a t' => c a && all_in c t'
  end.

(** The character before the position reached by reading [t]. *)
Fixpoint last_of (prev : option ascii) (t : string) : option ascii :=
  match t with
  | EmptyString => prev
  | String a t' => last_of (Some a) t'
  end.

Definition within (hi : option nat) (n : nat) : Prop :=
  match hi with
  | Some h => (n <= h)%nat
  | None => True
  end.

(** [den r prev s caps t s' caps']: at the position with rest [s],
    after the character [prev], the pattern [r] can match the text
    [t], leaving the rest [s'] and turning the groups [caps] into
    [caps']. *)
Fixpoint den (r : regex) (prev : option ascii) (s : string)
    (caps : list string) (t s' : string) (caps' : list string) : Prop :=
  match r with
  | Bnd => t = EmptyString /\ s' = s /\ at_boundary prev s = true /\ caps' = caps
  | Cls c =>
      exists a, t = String a EmptyString /\ s = String a s' /\ c a = true
                /\ caps' = caps
  | Lit l => t = l /\ s = l ++ s' /\ caps' = caps
  | Rep c lo hi =>
      s = t ++ s' /\ all_in c t = true /\ (lo <= String.length t)%nat
      /\ within hi (String.length t) /\ caps' = caps
  | Cat r1 r2 =>
      exists t1 t2 mid capsm,
        den r1 prev s caps t1 mid capsm
        /\ den r2 (last_of prev t1) mid capsm t2 s' caps'
        /\ t = t1 ++ t2
  | Alt r1 r2 =>
      den r1 prev s caps t s' caps' \/ den r2 prev s caps t s' caps'
  | Grp r1 =>
      exists caps1, den r1 prev s caps t s' caps1 /\ caps' = (caps1 ++ [t])%list
  end.

End ReSem.

(* ================================================================== *)
(** * [datetime]: dates of the proleptic Gregorian calendar           *)
(* ================================================================== *)

Module Datetime.
Import Py.

(** A [datetime] built by [datetime(year, month, day)]: its time of
    day is midnight and stays so under every operation of the agent,
    so the date is all that is kept. *)
Record datetime : Type := MkDate { year : Z; month : Z; day : Z }.

Definition MINYEAR : Z := 1.
Definition MAXYEAR : Z := 9999.
Definition MAXORDINAL : Z := 3652059.

Definition is_leap (y : Z) : bool :=
  (y mod 4 =? 0) && (negb (y mod 100 =? 0) || (y mod 400 =? 0)).

Definition DAYS_IN_MONTH : list Z :=
  [31; 28; 31; 30; 31; 30; 31; 31; 30; 31; 30; 31].

Definition DAYS_BEFORE_MONTH : list Z :=
  [0; 31; 59; 90; 120; 151; 181; 212; 243; 273; 304; 334].

(** The entry of month [m] (from 1) in one of the two tables. *)
Definition month_entry (table : list Z) (m : Z) : Z :=
  nth (Z.to_nat (m - 1)) table 0.

Definition days_in_month (y m : Z) : Z :=
  if (m =? 2) && is_leap y then 29 else month_entry DAYS_IN_MONTH m.

Definition days_before_year (y : Z) : Z :=
  let y1 := y - 1 in y1 * 365 + y1 / 4 - y1 / 100 + y1 / 400.

Definition days_before_month (y m : Z) : Z :=
  month_entry DAYS_BEFORE_MONTH m + (if (2 <? m) && is_leap y then 1 else 0).

(** The day number of a date, 1 January of year 1 being day 1. *)
Definition ymd2ord (y m d : Z) : Z :=
  days_before_year y + days_before_month y m + d.

Definition DI400Y : Z := 146097.
Definition DI100Y : Z := 36524.
Definition DI4Y : Z := 1461.

(** The date of a day number. *)
Definition ord2ymd (n : Z) : datetime :=
  let n := n - 1 in
  let n400 := n / DI400Y in
  let n := n mod DI400Y in
  let n100 := n / DI100Y in
  let n := n mod DI100Y in
  let n4 := n / DI4Y in
  let n := n mod DI4Y in
  let n1 := n / 365 in
  let n := n mod 365 in
  let y := n400 * 400 + 1 + n100 * 100 + n4 * 4 + n1 in
  if (n1 =? 4) || (n100 =? 4) then MkDate (y - 1) 12 31
  else
    let leapyear := (n1 =? 3) && (negb (n4 =? 24) || (n100 =? 3)) in
    let bump (m : Z) := if (2 <? m) && leapyear then 1 else 0 in
    let m := Z.shiftr (n + 50) 5 in
    let preceding := month_entry DAYS_BEFORE_MONTH m + bump m in
    if n <? preceding then
      let m' := m - 1 in
      let preceding' :=
        preceding - (month_entry DAYS_IN_MONTH m'
                     + (if (m' =? 2) && leapyear then 1 else 0)) in
      MkDate y m' (n - preceding' + 1)
    else MkDate y m (n - preceding + 1).

(** [datetime(y, m, d)]: the fields are checked in this order. *)
Definition new (y m d : Z) : res datetime :=
  if negb ((MINYEAR <=? y) && (y <=? MAXYEAR)) then
    Raise (ValueError ("year " ++ str_int y ++ " is out of range"))
  else if negb ((1 <=? m) && (m <=? 12)) then
    Raise (ValueError "month must be in 1..12")
  else if negb ((1 <=? d) && (d <=? days_in_month y m)) then
    Raise (ValueError "day is out of range for month")
  else Ok (MkDate y m d).

(** [d.toordinal()] *)
Definition toordinal (d : datetime) : Z := ymd2ord (year d) (month d) (day d).

(** [timedelta(days=n)], kept as its number of days. *)
Definition timedelta (n : Z) : res Z :=
  if 999999999 <? Z.abs n then
    Raise (OverflowError
             ("days=" ++ str_int n ++ "; must have magnitude <= 999999999"))
  else Ok n.

(** [d + delta] *)
Definition add (d : datetime) (delta : Z) : res datetime :=
  let n := toordinal d + delta in
  if (1 <=? n) && (n <=? MAXORDINAL) then Ok (ord2ymd n)
  else Raise (OverflowError "date value out of range").

(** [(d2 - d1).days] *)
Definition sub_days (d2 d1 : datetime) : Z := toordinal d2 - toordinal d1.

(** [d.weekday()]: Monday is 0. *)
Definition weekday (d : datetime) : Z := (toordinal d + 6) mod 7.

Definition month_names : list string :=
  ["January"; "February"; "March"; "April"; "May"; "June"; "July";
   "August"; "September"; "October"; "November"; "December"].

Definition day_names : list string :=
  ["Monday"; "Tuesday"; "Wednesday"; "Thursday"; "Friday"; "Saturday";
   "Sunday"].

(** [%B] *)
Definition month_name (d : datetime) : string :=
  nth (Z.to_nat (month d - 1)) month_names EmptyString.

(** [d.strftime("%B %d, %Y")]: the day in two digits, the year in four
    (leading zeros as the library documents them). *)
Definition strftime_B_d_Y (d : datetime) : string :=
  month_name d ++ " " ++ zero_pad 2 (day d) ++ ", " ++ zero_pad 4 (year d).

(** [d.strftime("%A")] *)
Definition strftime_A (d : datetime) : string :=
  nth (Z.to_nat (weekday d)) day_names EmptyString.

End Datetime.

(* ================================================================== *)
(** * Checking the calendar over one cycle of 400 years               *)
(* ================================================================== *)

Module Calendar.
Import Py Datetime.

(** The month and the day of [d] are those of a calendar date. *)
Definition valid_month_day (d : datetime) : bool :=
  (1 <=? month d) && (month d <=? 12)
  && (1 <=? day d) && (day d <=? days_in_month (year d) (month d)).

(** Day number [r + 1] is the day number of the date computed for it. *)
Definition cycle_ok (r : Z) : bool :=
  let d := ord2ymd (r + 1) in
  (toordinal d =? r + 1) && valid_month_day d.

(** [f] holds on the [2 ^ depth] integers from [lo] on. *)
Fixpoint all_range (f : Z -> bool) (depth : nat) (lo : Z) : bool :=
  match depth with
  | O => f lo
  | S k => all_range f k lo && all_range f k (lo + 2 ^ Z.of_nat k)
  end.

(** The same date [years] years later. *)
Definition shift_year (years : Z) (d : datetime) : datetime :=
  MkDate (year d + years) (month d) (day d).

End Calendar.

(* ================================================================== *)
(** * Checking every date of one cycle of 400 years                   *)
(* ================================================================== *)

Module DateCycle.
Import Py Datetime Calendar.

Definition date_eqb (a b : datetime) : bool :=
  (year a =? year b) && (month a =? month b) && (day a =? day b).

(** When [y], [m], [d] is a calendar date, its day number lies in the
    first cycle and gives the date back. *)
Definition date_ok (y m d : Z) : bool :=
  let n := ymd2ord y m d in
  negb (valid_month_day (MkDate y m d))
  || (date_eqb (ord2ymd n) (MkDate y m d) && (1 <=? n) && (n <=? DI400Y)).

(** [f] holds for the years 1 to 400. *)
Definition all_years (f : Z -> bool) : bool :=
  all_range f 8 1 && all_range f 7 257 && all_range f 4 385.

(** [f] holds for the months 1 to 12. *)
Definition all_months (f : Z -> bool) : bool :=
  all_range f 3 1 && all_range f 2 9.

(** [f] holds for the days 0 to 31. *)
Definition all_days (f : Z -> bool) : bool := all_range f 5 0.

End DateCycle.

(* ================================================================== *)
(** * Values read from JSON, and Python dictionaries                  *)
(* ================================================================== *)

Module Json.
Import Py.

(** What [json.load] returns, and what the [Dict[str, Any]] values of
    the two files hold: a dictionary is a finite map on its keys. *)
#[warnings="-register-all"]
Inductive json : Type :=
| JNull
| JBool (b : bool)
| JInt (n : Z)
| JFloat (x : float)
| JStr (s : string)
| JList (l : list json)
| JDict (d : gmap string json).

(** The name of a value's type, as error messages print it. *)
Definition type_name (v : json) : string :=
  match v with
  | JNull => "NoneType"
  | JBool _ => "bool"
  | JInt _ => "int"
  | JFloat _ => "float"
  | JStr _ => "str"
  | JList _ => "list"
  | JDict _ => "dict"
  end.

(** [v[key]] for a key that is a [str] *)
Definition getitem (v : json) (key : string) : res json :=
  match v with
  | JDict d =>
      match d !! key with
      | Some x => Ok x
      | None => Raise (KeyError key)
      end
  | JStr _ => Raise (TypeError "string indices must be integers, not 'str'")
  | JList _ =>
      Raise (TypeError "list indices must be integers or slices, not str")
  | _ => Raise (TypeError ("'" ++ type_name v ++ "' object is not subscriptable"))
  end.

(** [v.get(key, default)] *)
Definition get (v : json) (key : string) (dflt : json) : res json :=
  match v with
  | JDict d => Ok (default dflt (d !! key))
  | _ => Raise (AttributeError
                  ("'" ++ type_name v ++ "' object has no attribute 'get'"))
  end.

(** The values [for item in v] runs through: the elements of a list,
    the characters of a [str], the keys of a dictionary. *)
Definition iterate (v : json) : res (list json) :=
  match v with
  | JList l => Ok l
  | JStr s => Ok (map (fun a => JStr (String a EmptyString)) (list_ascii_of_string s))
  | JDict d => Ok (map (fun kv => JStr (fst kv)) (map_to_list d))
  | _ => Raise (TypeError ("'" ++ type_name v ++ "' object is not iterable"))
  end.

End Json.

(* ================================================================== *)
(** * [mscore_adapter.py]                                             *)
(* ================================================================== *)

Module Adapter.
Import Py Json.

(** The dataclass [MSCoReExample].  A dataclass stores what it is
    given, so each field holds the JSON value of the item. *)
Record MSCoReExample : Type := MkExample {
  question_id : json;
  question : json;
  answer : json;
  reasoning_steps : json;
  domain : json;
  difficulty : json
}.

(** The fields of an [MSCoReAdapter] object. *)
Record MSCoReAdapter : Type := MkAdapter {
  data_path : string;
  examples : list MSCoReExample
}.

(** What [logging] has been asked to record. *)
Inductive level : Type := INFO | ERROR.

Definition log_record : Type := (level * string)%type.

(** [str(n)] for a length *)
Definition str_len {A : Type} (l : list A) : string :=
  str_int (Z.of_nat (length l)).

(** The [MSCoReExample(...)] call of the loop body: the three
    subscripts raise when the key is absent, the three [get] fall back
    on their defaults. *)
Definition example_of (item : json) : res MSCoReExample :=
  qid <- getitem item "id" ;;
  q <- getitem item "question" ;;
  a <- getitem item "answer" ;;
  steps <- get item "reasoning_steps" (JList []) ;;
  dom <- get item "domain" (JStr "general") ;;
  dif <- get item "difficulty" (JStr "medium") ;;
  Ok (MkExample qid q a steps dom dif).

(** [self.examples.append(example)] *)
Definition append (self : MSCoReAdapter) (example : MSCoReExample)
  : MSCoReAdapter :=
  MkAdapter (data_path self) (app (examples self) [example]).

(** The [for item in ...] loop: the object as the loop leaves it, and
    whether it ran to its end or an item raised. *)
Fixpoint load_items (items : list json) (self : MSCoReAdapter)
  : res unit * MSCoReAdapter :=
  match items with
  | [] => (Ok tt, self)
  | item :: rest =>
      match example_of item with
      | Ok example => load_items rest (append self example)
      | Raise e => (Raise e, self)
      end
  end.

(** The body of the [try]. *)
Definition load_body (data : res json) (self : MSCoReAdapter)
  : res unit * MSCoReAdapter :=
  match (d <- data ;; v <- getitem d "examples" ;; iterate v) with
  | Ok items => load_items items self
  | Raise e => (Raise e, self)
  end.

(** [load_data]: [read] stands for opening the file at a path and
    parsing it with [json.load].  The outcome, the object and the log
    afterwards. *)
Definition load_data (read : string -> res json) (self : MSCoReAdapter)
    (log : list log_record)
  : res unit * MSCoReAdapter * list log_record :=
  match load_body (read (data_path self)) self with
  | (Ok tt, self') =>
      let msg := "Loaded " ++ str_len (examples self')
                 ++ " examples from MSCoRe" in
      (Ok tt, self', app log [(INFO, msg)])
  | (Raise e, self') =>
      let msg := "Error loading MSCoRe data: " ++ str_exn e in
      (Raise e, self', app log [(ERROR, msg)])
  end.

(** [__init__] *)
Definition __init__ (read : string -> res json) (mscore_data_path : string)
    (log : list log_record)
  : res unit * MSCoReAdapter * list log_record :=
  load_data read (MkAdapter mscore_data_path []) log.

(** [convert_to_maas_format] *)
Definition convert_to_maas_format (example : MSCoReExample)
  : gmap string json :=
  {[ "id" := question_id example;
     "question" := question example;
     "expected_answer" := answer example;
     "metadata" := JDict {[ "domain" := domain example;
                            "difficulty" := difficulty example;
                            "source" := JStr "MSCoRe";
                            "reasoning_steps" := reasoning_steps example ]} ]}.

(** [batch_convert]: [None] stands for the argument left out. *)
Definition batch_convert (self : MSCoReAdapter)
    (examples_arg : option (list MSCoReExample))
  : list (gmap string json) :=
  let examples :=
    match examples_arg with
    | None => examples self
    | Some l => l
    end in
  map convert_to_maas_format examples.

(** A keyword given by its UTF-8 bytes. *)
Definition utf8 (bytes : list N) : string :=
  string_of_list_ascii (map ascii_of_N bytes).

Definition arithmetic_keywords : list string :=
  ["+"; "-"; utf8 [224; 184; 163; 194; 151]%N; "*"; "/";
   utf8 [224; 184; 163; 224; 184; 151]%N; "percent";
   "percentage"; "sum"; "total"; "average"].

Definition temporal_keywords : list string :=
  ["day"; "month"; "year"; "hour"; "minute";
   "second"; "date"; "time"; "age"; "born"].

Definition logical_keywords : list string :=
  ["if"; "then"; "and"; "or"; "not"; "all";
   "some"; "none"; "implies"; "therefore"].

Definition spatial_keywords : list string :=
  ["square"; "circle"; "triangle"; "perimeter";
   "area"; "volume"; "distance"; "angle"].

Definition commonsense_keywords : list string :=
  ["capital"; "president"; "country"; "city";
   "person"; "animal"; "color"; "shape"].

Definition step_indicators : list string :=
  ["then"; "after"; "next"; "first"; "second";
   "finally"; "later"; "subsequently"].

Definition _has_arithmetic (question : string) : bool :=
  any_in arithmetic_keywords (lower question).

Definition _has_temporal (question : string) : bool :=
  any_in temporal_keywords (lower question).

Definition _has_logical (question : string) : bool :=
  any_in logical_keywords (lower question).

Definition _has_spatial (question : string) : bool :=
  any_in spatial_keywords (lower question).

Definition _has_commonsense (question : string) : bool :=
  any_in commonsense_keywords (lower question).

Definition _requires_multi_step (question : string) : bool :=
  any_in step_indicators (lower question).

(** [analyze_question_type] *)
Definition analyze_question_type (question : string) : gmap string bool :=
  {[ "has_arithmetic" := _has_arithmetic question;
     "has_temporal" := _has_temporal question;
     "has_logical" := _has_logical question;
     "has_spatial" := _has_spatial question;
     "has_commonsense" := _has_commonsense question;
     "requires_multi_step" := _requires_multi_step question ]}.

End Adapter.

(* ================================================================== *)
(** * [temporal_reasoning_agent.py]                                   *)
(* ================================================================== *)

Module Temporal.
Import Py Re Json Datetime.
Local Open Scope regex_scope.

Definition name : string := "TemporalReasoningAgent".

Definition description : string :=
  "Handles date calculations, time intervals, and temporal logic".

Definition supported_operations : list string :=
  ["date_addition"; "date_subtraction"; "age_calculation";
   "time_interval"; "day_of_week"; "leap_year_check"].

(** [[/-]] *)
Definition is_sep (a : ascii) : bool :=
  Ascii.eqb a "/" || Ascii.eqb a "-".

Definition is_s (a : ascii) : bool := Ascii.eqb a "s".

(** [\b(\d{1,2})[/-](\d{1,2})[/-](\d{4})\b] *)
Definition date_pattern : regex :=
  Bnd >> Grp (Rep is_digit 1 (Some 2%nat)) >> Cls is_sep
      >> Grp (Rep is_digit 1 (Some 2%nat)) >> Cls is_sep
      >> Grp (Rep is_digit 4 (Some 4%nat)) >> Bnd.

(** [(\d+)\s+(day|month|year)s?] *)
Definition duration_pattern : regex :=
  Grp (Rep is_digit 1 None) >> Rep is_space 1 None
      >> Grp (Alt (Lit "day") (Alt (Lit "month") (Lit "year")))
      >> Rep is_s 0 (Some 1%nat).

(** [\b(\d{4})\b] *)
Definition year_pattern : regex :=
  Bnd >> Grp (Rep is_digit 4 (Some 4%nat)) >> Bnd.

(** [\d+] *)
Definition digits_pattern : regex := Rep is_digit 1 None.

(** [t[i]] for a tuple of groups *)
Definition item (i : nat) (t : list string) : string :=
  nth i t EmptyString.

(** [datetime(int(t[2]), int(t[1]), int(t[0]))] *)
Definition date_of_groups (t : list string) : res datetime :=
  y <- int (item 2 t) ;;
  m <- int (item 1 t) ;;
  d <- int (item 0 t) ;;
  Datetime.new y m d.

(** [(a1, a2) < (b1, b2)] on pairs of integers *)
Definition pair_lt (a1 a2 b1 b2 : Z) : bool :=
  (a1 <? b1) || ((a1 =? b1) && (a2 <? b2)).

(** ['s' if n > 1 else ''] *)
Definition plural (n : Z) : string :=
  if 1 <? n then "s" else EmptyString.

Definition _identify_operation (query : string) : string :=
  let query_lower := lower query in
  if any_in ["age"; "born"; "birth"] query_lower then
    "age_calculation"
  else if any_in ["later"; "after"; "next"; "add"] query_lower then
    "date_addition"
  else if any_in ["before"; "ago"; "subtract"] query_lower then
    "date_subtraction"
  else if any_in ["between"; "interval"; "duration"] query_lower then
    "time_interval"
  else if any_in ["day of week"; "weekday"] query_lower then
    "day_of_week"
  else if contains "leap year" query_lower then
    "leap_year_check"
  else
    "date_addition".

Definition _calculate_age (query : string) : res string :=
  let dates := findall date_pattern query in
  match dates with
  | d0 :: d1 :: _ =>
      birth_date <- date_of_groups d0 ;;
      target_date <- date_of_groups d1 ;;
      let age := year target_date - year birth_date in
      let age :=
        if pair_lt (month target_date) (day target_date)
                   (month birth_date) (day birth_date)
        then age - 1 else age in
      Ok (str_int age ++ " years")
  | _ => Ok "Could not extract dates for age calculation"
  end.

Definition _add_to_date (query : string) : res string :=
  match search date_pattern query with
  | None => Ok "No date found in query"
  | Some date_match =>
      day <- int (group 1 date_match) ;;
      month <- int (group 2 date_match) ;;
      year <- int (group 3 date_match) ;;
      base_date <- Datetime.new year month day ;;
      match search duration_pattern (lower query) with
      | None => Ok "No duration specified"
      | Some duration_match =>
          amount <- int (group 1 duration_match) ;;
          let unit := group 2 duration_match in
          let format (made : res datetime) : res string :=
            new_date <- made ;; Ok (strftime_B_d_Y new_date) in
          if String.eqb unit "day" then
            format (delta <- timedelta amount ;; Datetime.add base_date delta)
          else if String.eqb unit "month" then
            let new_year := year + (month + amount - 1) / 12 in
            let new_month := (month + amount - 1) mod 12 + 1 in
            format (Datetime.new new_year new_month (Z.min day 28))
          else if String.eqb unit "year" then
            format (Datetime.new (year + amount) month (Z.min day 28))
          else Ok ("Unknown unit: " ++ unit)
      end
  end.

(** The body is [pass]: the call returns [None]. *)
Definition _subtract_from_date (query : string) : res (option string) :=
  Ok None.

Definition _calculate_interval (query : string) : res string :=
  let dates := findall date_pattern query in
  match dates with
  | d0 :: d1 :: _ =>
      date1 <- date_of_groups d0 ;;
      date2 <- date_of_groups d1 ;;
      let delta_days := Z.abs (sub_days date2 date1) in
      let years := delta_days / 365 in
      let months := (delta_days mod 365) / 30 in
      let days := (delta_days mod 365) mod 30 in
      let parts := [] in
      let parts :=
        if 0 <? years
        then app parts [str_int years ++ " year" ++ plural years]
        else parts in
      let parts :=
        if 0 <? months
        then app parts [str_int months ++ " month" ++ plural months]
        else parts in
      let parts :=
        if (0 <? days) || (match parts with [] => true | _ => false end)
        then app parts [str_int days ++ " day" ++ plural days]
        else parts in
      Ok (join ", " parts)
  | _ => Ok "Could not extract two dates"
  end.

Definition _find_day_of_week (query : string) : res string :=
  match search date_pattern query with
  | Some date_match =>
      day <- int (group 1 date_match) ;;
      month <- int (group 2 date_match) ;;
      year <- int (group 3 date_match) ;;
      date_obj <- Datetime.new year month day ;;
      Ok (strftime_A date_obj)
  | None => Ok "Could not extract date"
  end.

Definition _check_leap_year (query : string) : res string :=
  match search year_pattern query with
  | Some year_match =>
      year <- int (group 1 year_match) ;;
      let is_leap :=
        ((year mod 4 =? 0) && negb (year mod 100 =? 0))
        || (year mod 400 =? 0) in
      Ok (str_int year ++ " is "
          ++ (if is_leap then "a leap year" else "not a leap year"))
  | None => Ok "Could not extract year"
  end.

(** A [str] result as the value the dispatcher returns. *)
Definition some_str (r : res string) : res (option string) :=
  s <- r ;; Ok (Some s).

(** The [except Exception as e] clause: what the operation raises
    becomes a message. *)
Definition catch (attempt : res (option string)) : option string :=
  match attempt with
  | Ok result => result
  | Raise e => Some ("Error in temporal operation: " ++ str_exn e)
  end.

Definition _execute_operation (operation query : string) (context : json)
  : option string :=
  catch
    (if String.eqb operation "age_calculation" then
       some_str (_calculate_age query)
     else if String.eqb operation "date_addition" then
       some_str (_add_to_date query)
     else if String.eqb operation "date_subtraction" then
       _subtract_from_date query
     else if String.eqb operation "time_interval" then
       some_str (_calculate_interval query)
     else if String.eqb operation "day_of_week" then
       some_str (_find_day_of_week query)
     else if String.eqb operation "leap_year_check" then
       some_str (_check_leap_year query)
     else Ok None).

(** [min(x, 1.0)] on floats: the first argument unless the second is
    smaller. *)
Definition min_one (x : float) : float :=
  if PrimFloat.ltb 1.0%float x then 1.0%float else x.

#[warnings="-inexact-float"]
Definition _calculate_confidence (query : string) (result : option string)
  : float :=
  match result with
  | None => 0.0%float
  | Some text =>
      if contains "Error" text || contains "Could not" text then 0.0%float
      else
        let confidence := 0.7%float in
        let confidence :=
          if any_in ["year"; "month"; "day"; "Monday"; "Tuesday"] text
          then (confidence + 0.2)%float else confidence in
        let confidence :=
          match search digits_pattern text with
          | Some _ => (confidence + 0.1)%float
          | None => confidence
          end in
        min_one confidence
  end.

(** A result as a dictionary value. *)
Definition json_of_result (result : option string) : json :=
  match result with
  | Some text => JStr text
  | None => JNull
  end.

(** The dictionary [process] returns. *)
Definition response (operation : string) (result : option string)
    (confidence : float) : gmap string json :=
  {[ "agent" := JStr name;
     "operation" := JStr operation;
     "result" := json_of_result result;
     "confidence" := JFloat confidence ]}.

(** [input_data.get("query", "")] *)
Definition query_of (input_data : gmap string json) : json :=
  default (JStr EmptyString) (input_data !! "query").

(** [input_data.get("context", {})] *)
Definition context_of (input_data : gmap string json) : json :=
  default (JDict ∅) (input_data !! "context").

(** [process]: [query.lower()] is the first use of the query and
    raises unless the query is a [str]; nothing after it raises. *)
Definition process (input_data : gmap string json)
  : res (gmap string json) :=
  let context := context_of input_data in
  match query_of input_data with
  | JStr query =>
      let operation := _identify_operation query in
      let result := _execute_operation operation query context in
      Ok (response operation result (_calculate_confidence query result))
  | other =>
      Raise (AttributeError
               ("'" ++ type_name other ++ "' object has no attribute 'lower'"))
  end.

End Temporal.

(* ================================================================== *)
(** * The specification's wording, for comparison with the code       *)
(* ================================================================== *)

Module Spec.
Import Py.

(** The priority-ordered keyword groups of the operation selector:
    age-related words, forward-time words, backward-time words,
    interval words, weekday words, the leap-year phrase. *)
Definition priority : list (list string * string) :=
  [ (["age"; "born"; "birth"], "age_calculation");
    (["later"; "after"; "next"; "add"], "date_addition");
    (["before"; "ago"; "subtract"], "date_subtraction");
    (["between"; "interval"; "duration"], "time_interval");
    (["day of week"; "weekday"], "day_of_week");
    (["leap year"], "leap_year_check") ].

Definition default_operation : string := "date_addition".

(** An ordered list of (keyword group, operation) pairs evaluated in
    order: the first group with a keyword in the text wins. *)
Fixpoint select (table : list (list string * string)) (text : string)
  : string :=
  match table with
  | [] => default_operation
  | (words, operation) :: rest =>
      if any_in words text then operation else select rest text
  end.

(** No group of [table] has a keyword in [text]. *)
Definition none_match (table : list (list string * string))
    (text : string) : Prop :=
  Forall (fun g => any_in (fst g) text = false) table.

(** The Gregorian rule: divisible by 4 and not by 100, unless
    divisible by 400. *)
Definition gregorian_leap (y : Z) : Prop :=
  (y mod 4 = 0 /\ y mod 100 <> 0) \/ y mod 400 = 0.

(** The six flags of the question analysis, each with the keyword
    list of its category. *)
Definition categories : list (string * list string) :=
  [ ("has_arithmetic", Adapter.arithmetic_keywords);
    ("has_temporal", Adapter.temporal_keywords);
    ("has_logical", Adapter.logical_keywords);
    ("has_spatial", Adapter.spatial_keywords);
    ("has_commonsense", Adapter.commonsense_keywords);
    ("requires_multi_step", Adapter.step_indicators) ].

(** The item is a JSON object without one of the required fields. *)
Definition lacks_required_field (item : Json.json) : Prop :=
  exists d, item = Json.JDict d
    /\ (d !! "id" = None \/ d !! "question" = None \/ d !! "answer" = None).

(** One component of an interval, with its plural "s". *)
Definition part (n : Z) (unit : string) : string :=
  str_int n ++ " " ++ unit ++ (if 1 <? n then "s" else EmptyString).

(** A component is left out when its value is zero. *)
Definition shown (n : Z) (unit : string) : list string :=
  if decide (n = 0) then [] else [part n unit].

(** The interval text: units with value zero are omitted, except that
    the days are shown when both years and months are zero. *)
Definition interval_text (years months days : Z) : string :=
  join ", "
    (shown years "year" ++ shown months "month"
     ++ (if decide (years = 0 /\ months = 0) then [part days "day"]
         else shown days "day"))%list.

(** A four-digit number in a text [pre ++ yr ++ post]: [yr] is four
    digits, with a word boundary before and after (no letter, digit or
    underscore touches it). *)
Definition four_digit_number (pre yr post : string) : Prop :=
  String.length yr = 4%nat
  /\ ReSem.all_in is_digit yr = true
  /\ Re.at_boundary (ReSem.last_of None pre) (yr ++ post) = true
  /\ Re.at_boundary (ReSem.last_of None (pre ++ yr)) post = true.

(** [(m2, d2)] is lexicographically less than [(m1, d1)]. *)
Definition lex_less (m2 d2 m1 d1 : Z) : Prop :=
  m2 < m1 \/ (m2 = m1 /\ d2 < d1).

#[global] Instance gregorian_leap_dec (y : Z) : Decision (gregorian_leap y).
Proof. unfold gregorian_leap. apply _. Defined.

(** The yes/no sentence of the leap-year check. *)
Definition leap_sentence (y : Z) : string :=
  str_int y ++ " is "
  ++ (if decide (gregorian_leap y) then "a leap year" else "not a leap year").

End Spec.

(* ================================================================== *)
(** * Sample data                                                     *)
(* ================================================================== *)

Module Samples.
Import Py Json Adapter.

Definition sample_example : MSCoReExample :=
  MkExample (JStr "ex-1") (JStr "What is 5 + 3?") (JStr "8")
            (JList [JStr "add the numbers"]) (JStr "general") (JStr "medium").

(** An item with every field, which loads as [sample_example]. *)
Definition item_full : json :=
  JDict {[ "id" := JStr "ex-1";
           "question" := JStr "What is 5 + 3?";
           "answer" := JStr "8";
           "reasoning_steps" := JList [JStr "add the numbers"];
           "domain" := JStr "general";
           "difficulty" := JStr "medium" ]}.

(** A query whose first date is 31 February. *)
Definition query_february_31 : string :=
  "born 31/02/1990, how old on 01/01/2020".

(** An item without the key "question". *)
Definition item_no_question : json :=
  JDict {[ "id" := JStr "ex-2"; "answer" := JStr "4" ]}.

(** A file whose second item lacks a required field. *)
Definition data_second_bad : json :=
  JDict {[ "examples" := JList [item_full; item_no_question; item_full] ]}.

End Samples.

(* ================================================================== *)
(** * Facts about the runtime model                                   *)
(* ================================================================== *)

#[local] Arguments String.append !_ _ / : simpl nomatch.

Section StringFacts.
Import Py.

Lemma prefix_app (p s : string) :
  String.prefix p s = true <-> exists post, s = p ++ post.
Proof.
  revert s. induction p as [|a p IH]; intros s.
  - split; [intros _; exists s; reflexivity | intros _; now destruct s].
  - destruct s as [|b s]; simpl.
    + split; [discriminate | intros [post H]; discriminate].
    + destruct (ascii_dec a b) as [->|Hne].
      * rewrite IH. split; intros [post H]; exists post.
        -- now rewrite H.
        -- now inversion H.
      * split; [discriminate|]. intros [post H]. simpl in H. congruence.
Qed.

Lemma contains_unfold (w t : string) :
  contains w t =
  String.prefix w t ||
  match t with
  | EmptyString => false
  | String _ t' => contains w t'
  end.
Proof. destruct t; reflexivity. Qed.

Lemma contains_app (w t : string) :
  contains w t = true <-> exists pre post, t = pre ++ w ++ post.
Proof.
  induction t as [|a t IH]; rewrite contains_unfold.
  - rewrite orb_false_r, prefix_app. split.
    + intros [post H]. exists EmptyString, post. exact H.
    + intros [pre [post H]]. destruct pre; simpl in H.
      * now exists post.
      * discriminate.
  - rewrite orb_true_iff, prefix_app, IH. split.
    + intros [[post H]|[pre [post H]]].
      * exists EmptyString, post. exact H.
      * exists (String a pre), post. simpl. now rewrite H.
    + intros [pre [post H]]. destruct pre as [|b pre]; simpl in H.
      * left. now exists post.
      * right. inversion H. now exists pre, post.
Qed.

Lemma any_in_app (words : list string) (t : string) :
  any_in words t = true <->
  exists w pre post, In w words /\ t = pre ++ w ++ post.
Proof.
  unfold any_in. rewrite existsb_exists. split.
  - intros [w [Hin Hc]]. apply contains_app in Hc as [pre [post H]].
    now exists w, pre, post.
  - intros [w [pre [post [Hin H]]]]. exists w. split; [exact Hin|].
    apply contains_app. now exists pre, post.
Qed.

Lemma lower_char_idem (a : ascii) : lower_char (lower_char a) = lower_char a.
Proof.
  destruct a as [[] [] [] [] [] [] [] []]; vm_compute; reflexivity.
Qed.

Lemma lower_idem (s : string) : lower (lower s) = lower s.
Proof.
  induction s as [|a s IH]; simpl; [reflexivity|].
  now rewrite lower_char_idem, IH.
Qed.

Lemma int_short (s : string) :
  (String.length s <= 4300)%nat -> int s = Ok (int_value s).
Proof.
  intros H. unfold int, MAX_STR_DIGITS.
  destruct (Z.ltb_spec 4300 (Z.of_nat (String.length s))); [lia|reflexivity].
Qed.

Lemma int_ok (s : string) (n : Z) : int s = Ok n -> n = int_value s.
Proof.
  unfold int. destruct (MAX_STR_DIGITS <? _); [discriminate|].
  now intros [= <-].
Qed.

End StringFacts.

Section ReFacts.
Import Py Re.

Lemma collect_nil_scan (r : regex) (s : string) (prev : option ascii) :
  collect r O prev s = [] <-> scan r prev s = None.
Proof.
  revert prev. induction s as [|a s IH]; intros prev; simpl.
  - destruct (match_at r prev ""); split; intros H; try discriminate; reflexivity.
  - destruct (match_at r prev (String a s)).
    + split; discriminate.
    + apply IH.
Qed.

Lemma findall_nil_search (r : regex) (s : string) :
  findall r s = [] <-> search r s = None.
Proof. apply collect_nil_scan. Qed.

Lemma collect_head_scan (r : regex) (s : string) (prev : option ascii) :
  hd_error (collect r O prev s) = option_map groups (scan r prev s).
Proof.
  revert prev. induction s as [|a s IH]; intros prev; simpl.
  - now destruct (match_at r prev "").
  - destruct (match_at r prev (String a s)); [reflexivity | apply IH].
Qed.

End ReFacts.

(* ================================================================== *)
(** * The matcher against the meaning of patterns                     *)
(* ================================================================== *)

Section ReSound.
Import Py Re ReSem.

Lemma app_assoc_str (a b c : string) : (a ++ b) ++ c = a ++ b ++ c.
Proof. induction a as [|x a IH]; simpl; [reflexivity | now rewrite IH]. Qed.

Lemma length_app_str (a b : string) :
  String.length (a ++ b) = (String.length a + String.length b)%nat.
Proof. induction a as [|x a IH]; simpl; [reflexivity | now rewrite IH]. Qed.

Lemma take_app (t s : string) : take (String.length t) (t ++ s) = t.
Proof. induction t as [|a t IH]; simpl; [now destruct s | now rewrite IH]. Qed.

Lemma taken_app (t s' : string) : taken (t ++ s') s' = t.
Proof.
  unfold taken. rewrite length_app_str.
  replace (String.length t + String.length s' - String.length s')%nat
    with (String.length t) by lia.
  apply take_app.
Qed.

Lemma last_of_app (prev : option ascii) (a b : string) :
  last_of prev (a ++ b) = last_of (last_of prev a) b.
Proof. revert prev. induction a as [|x a IH]; intros prev; simpl; auto. Qed.

Lemma den_app (r : regex) (prev : option ascii) (s : string)
    (caps : list string) (t s' : string) (caps' : list string) :
  den r prev s caps t s' caps' -> s = t ++ s'.
Proof.
  revert prev s caps t s' caps'.
  induction r as [|c|l|c lo hi|r1 IH1 r2 IH2|r1 IH1 r2 IH2|r1 IH1];
    intros prev s caps t s' caps'; simpl.
  - now intros (-> & -> & _).
  - now intros (a & -> & -> & _).
  - now intros (-> & -> & _).
  - now intros (-> & _).
  - intros (t1 & t2 & mid & capsm & H1 & H2 & ->).
    apply IH1 in H1. apply IH2 in H2. subst. now rewrite app_assoc_str.
  - intros [H|H]; eauto.
  - intros (caps1 & H & _). eauto.
Qed.

(** Splitting [s] after [n] characters. *)
Lemma advance_split (n : nat) (prev : option ascii) (s : string) :
  (n <= String.length s)%nat ->
  exists t s', s = t ++ s' /\ String.length t = n
               /\ advance n prev s = (last_of prev t, s').
Proof.
  revert prev s. induction n as [|n IH]; intros prev s Hn.
  - exists EmptyString, s. now destruct s.
  - destruct s as [|a s]; simpl in Hn; [lia|].
    destruct (IH (Some a) s ltac:(lia)) as (t & s' & -> & Hl & Ha).
    exists (String a t), s'. simpl. now rewrite Hl, Ha.
Qed.

Lemma advance_app (prev : option ascii) (t s' : string) :
  advance (String.length t) prev (t ++ s') = (last_of prev t, s').
Proof.
  revert prev. induction t as [|a t IH]; intros prev; simpl; [|apply IH].
  now destruct s'.
Qed.

Lemma span_spec (c : ascii -> bool) (hi : option nat) (s : string) :
  (span c hi s <= String.length s)%nat
  /\ within hi (span c hi s)
  /\ forall t s', s = t ++ s' -> (String.length t <= span c hi s)%nat ->
       all_in c t = true.
Proof.
  revert hi. induction s as [|a s IH]; intros hi; simpl.
  - split; [lia|]. split; [destruct hi; simpl; lia|].
    intros t s' H Hl. destruct t; [reflexivity | simpl in Hl; lia].
  - destruct (room hi && c a) eqn:E.
    + apply andb_true_iff in E as [Hroom Hc].
      destruct (IH (less hi)) as (H1 & H2 & H3).
      split; [lia|]. split.
      * destruct hi as [[|h]|]; simpl in *; try discriminate; lia.
      * intros t s' H Hl. destruct t as [|b t]; [reflexivity|].
        simpl in H. injection H as <- ->. simpl. rewrite Hc. simpl.
        apply (H3 t s' eq_refl). simpl in Hl. lia.
    + split; [lia|]. split; [destruct hi; simpl; lia|].
      intros t s' H Hl. destruct t; [reflexivity | simpl in Hl; lia].
Qed.

Lemma span_max (c : ascii -> bool) (hi : option nat) (t s' : string) :
  all_in c t = true -> within hi (String.length t) ->
  (String.length t <= span c hi (t ++ s'))%nat.
Proof.
  revert hi. induction t as [|a t IH]; intros hi Hall Hw; simpl; [lia|].
  simpl in Hall. apply andb_true_iff in Hall as [Hc Hall].
  assert (Hroom : room hi = true).
  { destruct hi as [[|h]|]; simpl in *; try reflexivity; lia. }
  rewrite Hroom, Hc. simpl.
  specialize (IH (less hi) Hall).
  assert (within (less hi) (String.length t)).
  { destruct hi as [h|]; simpl in *; lia. }
  specialize (IH H). lia.
Qed.

Lemma rep_try_some {A : Type} (try : nat -> option A) (lo j : nat) (x : A) :
  rep_try try lo j = Some x ->
  exists i, (lo <= i <= j)%nat /\ try i = Some x.
Proof.
  induction j as [|j IH]; simpl.
  - destruct (0 <? lo)%nat eqn:E; [discriminate|].
    apply Nat.ltb_ge in E. destruct (try 0%nat) eqn:T; [|discriminate].
    intros [= <-]. exists 0%nat. split; [lia | exact T].
  - destruct (S j <? lo)%nat eqn:E; [discriminate|].
    apply Nat.ltb_ge in E. destruct (try (S j)) eqn:T.
    + intros [= <-]. exists (S j). split; [lia | exact T].
    + intros H. destruct (IH H) as (i & Hi & Ht). exists i. split; [lia|exact Ht].
Qed.

Lemma rep_try_none {A : Type} (try : nat -> option A) (lo j : nat) :
  rep_try try lo j = None ->
  forall i, (lo <= i <= j)%nat -> try i = None.
Proof.
  induction j as [|j IH]; simpl.
  - destruct (0 <? lo)%nat eqn:E.
    + apply Nat.ltb_lt in E. intros _ i Hi. lia.
    + destruct (try 0%nat) eqn:T; [discriminate|].
      intros _ i Hi. now replace i with 0%nat by lia.
  - destruct (S j <? lo)%nat eqn:E.
    + apply Nat.ltb_lt in E. intros _ i Hi. lia.
    + destruct (try (S j)) eqn:T; [discriminate|].
      intros H i Hi. destruct (Nat.eq_dec i (S j)) as [->|Hne]; [exact T|].
      apply (IH H). lia.
Qed.

(** Soundness: what the matcher hands to its continuation is a match
    of the pattern. *)
Lemma run_sound {A : Type} (r : regex) :
  forall prev s caps (k : option ascii -> string -> list string -> option A) x,
    run r prev s caps k = Some x ->
    exists t s' caps',
      den r prev s caps t s' caps' /\ k (last_of prev t) s' caps' = Some x.
Proof.
  induction r as [|c|l|c lo hi|r1 IH1 r2 IH2|r1 IH1 r2 IH2|r1 IH1];
    intros prev s caps k x; simpl.
  - destruct (at_boundary prev s) eqn:E; [|discriminate].
    intros H. exists EmptyString, s, caps. simpl. auto.
  - destruct s as [|a s]; [discriminate|].
    destruct (c a) eqn:E; [|discriminate].
    intros H. exists (String a EmptyString), s, caps. simpl. eauto 10.
  - destruct (String.prefix l s) eqn:E; [|discriminate].
    apply prefix_app in E as [post ->].
    rewrite advance_app. intros H. exists l, post, caps. auto.
  - intros H. apply rep_try_some in H as (i & Hi & H).
    destruct (span_spec c hi s) as (Hlen & Hw & Hall).
    destruct (advance_split i prev s) as (t & s' & -> & Hl & Ha); [lia|].
    rewrite Ha in H. exists t, s', caps. split; [|exact H].
    repeat split.
    + apply (Hall t s' eq_refl). lia.
    + lia.
    + destruct hi as [h|]; simpl in *; lia.
  - intros H. apply IH1 in H as (t1 & mid & capsm & H1 & H).
    apply IH2 in H as (t2 & s' & caps' & H2 & H).
    exists (t1 ++ t2), s', caps'. split.
    + exists t1, t2, mid, capsm. auto.
    + now rewrite last_of_app.
  - destruct (run r1 prev s caps k) eqn:E.
    + intros [= <-]. apply IH1 in E as (t & s' & caps' & H1 & H).
      exists t, s', caps'. auto.
    + intros H. apply IH2 in H as (t & s' & caps' & H2 & H).
      exists t, s', caps'. auto.
  - intros H. apply IH1 in H as (t & s' & caps1 & H1 & H).
    pose proof (den_app _ _ _ _ _ _ _ H1) as ->.
    rewrite taken_app in H.
    exists t, s', (caps1 ++ [t])%list. split; [|exact H].
    exists caps1. auto.
Qed.

(** Completeness: when the matcher fails, no match of the pattern
    makes the continuation succeed. *)
Lemma run_complete {A : Type} (r : regex) :
  forall prev s caps (k : option ascii -> string -> list string -> option A),
    run r prev s caps k = None ->
    forall t s' caps',
      den r prev s caps t s' caps' -> k (last_of prev t) s' caps' = None.
Proof.
  induction r as [|c|l|c lo hi|r1 IH1 r2 IH2|r1 IH1 r2 IH2|r1 IH1];
    intros prev s caps k; simpl.
  - intros H t s' caps' (-> & -> & Hb & ->). now rewrite Hb in H.
  - intros H t s' caps' (a & -> & -> & Hc & ->). now rewrite Hc in H.
  - intros H t s' caps' (Ht & -> & ->). subst t.
    assert (E : String.prefix l (l ++ s') = true)
      by (apply prefix_app; now exists s').
    rewrite E in H. now rewrite advance_app in H.
  - intros H t s' caps' (-> & Hall & Hlo & Hw & ->).
    pose proof (span_max c hi t s' Hall Hw) as Hmax.
    pose proof (rep_try_none _ _ _ H (String.length t) ltac:(lia)) as Hi.
    simpl in Hi. now rewrite advance_app in Hi.
  - intros H t s' caps' (t1 & t2 & mid & capsm & H1 & H2 & ->).
    rewrite last_of_app.
    pose proof (IH1 _ _ _ _ H _ _ _ H1) as H'. simpl in H'.
    exact (IH2 _ _ _ _ H' _ _ _ H2).
  - destruct (run r1 prev s caps k) eqn:E; [discriminate|].
    intros H t s' caps' [H1|H2].
    + exact (IH1 _ _ _ _ E _ _ _ H1).
    + exact (IH2 _ _ _ _ H _ _ _ H2).
  - intros H t s' caps' (caps1 & H1 & ->).
    pose proof (IH1 _ _ _ _ H _ _ _ H1) as H'. simpl in H'.
    pose proof (den_app _ _ _ _ _ _ _ H1) as ->.
    now rewrite taken_app in H'.
Qed.

End ReSound.

(* ================================================================== *)
(** * Where [search] finds its match                                  *)
(* ================================================================== *)

Section SearchFacts.
Import Py Re ReSem.

Lemma app_nil_r_str (a : string) : a ++ EmptyString = a.
Proof. induction a as [|x a IH]; simpl; [reflexivity | now rewrite IH]. Qed.

Lemma match_at_sound (r : regex) (prev : option ascii) (s : string)
    (m : rmatch) :
  match_at r prev s = Some m ->
  exists t s', den r prev s [] t s' (groups m) /\ s = t ++ s'
               /\ width m = String.length t.
Proof.
  unfold match_at. intros H.
  apply run_sound in H as (t & s' & caps' & Hd & H).
  injection H as <-. exists t, s'. simpl.
  pose proof (den_app _ _ _ _ _ _ _ Hd) as ->.
  split; [exact Hd|]. split; [reflexivity|].
  rewrite length_app_str. lia.
Qed.

Lemma match_at_none (r : regex) (prev : option ascii) (s : string) :
  match_at r prev s = None ->
  forall t s' caps', ~ den r prev s [] t s' caps'.
Proof.
  unfold match_at. intros H t s' caps' Hd.
  pose proof (run_complete r _ _ _ _ H _ _ _ Hd) as H'. discriminate H'.
Qed.

(** [scan] answers with the match at the leftmost position that has
    one. *)
Lemma scan_some (r : regex) (s : string) (prev : option ascii) (m : rmatch) :
  scan r prev s = Some m ->
  exists pre suf,
    s = pre ++ suf
    /\ match_at r (last_of prev pre) suf = Some m
    /\ forall pre2 suf2, s = pre2 ++ suf2 ->
         (String.length pre2 < String.length pre)%nat ->
         match_at r (last_of prev pre2) suf2 = None.
Proof.
  revert prev. induction s as [|a s IH]; intros prev; simpl.
  - destruct (match_at r prev "") eqn:E; [|discriminate].
    intros [= <-]. exists EmptyString, EmptyString. simpl.
    split; [reflexivity|]. split; [exact E|]. intros ? ? _ Hl. simpl in Hl. lia.
  - destruct (match_at r prev (String a s)) eqn:E.
    + intros [= <-]. exists EmptyString, (String a s). simpl.
      split; [reflexivity|]. split; [exact E|].
      intros ? ? _ Hl. simpl in Hl. lia.
    + intros H. destruct (IH _ H) as (pre & suf & -> & Hm & Hleft).
      exists (String a pre), suf. simpl.
      split; [reflexivity|]. split; [exact Hm|].
      intros pre2 suf2 Hs Hl. destruct pre2 as [|b pre2]; simpl in *.
      * now subst suf2.
      * injection Hs as <- Hs. apply (Hleft pre2 suf2 Hs). lia.
Qed.

Lemma scan_none (r : regex) (s : string) (prev : option ascii) :
  scan r prev s = None ->
  forall pre suf, s = pre ++ suf -> match_at r (last_of prev pre) suf = None.
Proof.
  revert prev. induction s as [|a s IH]; intros prev; simpl.
  - destruct (match_at r prev "") eqn:E; [discriminate|].
    intros _ pre suf Hs. destruct pre; [|discriminate].
    simpl in *. now subst suf.
  - destruct (match_at r prev (String a s)) eqn:E; [discriminate|].
    intros H pre suf Hs. destruct pre as [|b pre]; simpl in *.
    + now subst suf.
    + injection Hs as <- Hs. now apply (IH _ H).
Qed.

End SearchFacts.


(* ================================================================== *)
(** * Day numbers and dates                                           *)
(* ================================================================== *)

Section CalendarFacts.
Import Py Datetime Calendar.

Lemma all_range_spec (f : Z -> bool) (depth : nat) (lo r : Z) :
  all_range f depth lo = true ->
  lo <= r < lo + 2 ^ Z.of_nat depth -> f r = true.
Proof.
  revert lo. induction depth as [|k IH]; intros lo H Hr.
  - simpl in *. replace r with lo by lia. exact H.
  - simpl in H. apply andb_true_iff in H as [H1 H2].
    rewrite Nat2Z.inj_succ, Z.pow_succ_r in Hr by lia.
    destruct (Z.lt_ge_cases r (lo + 2 ^ Z.of_nat k)).
    + apply (IH lo H1). lia.
    + apply (IH _ H2). lia.
Qed.

Lemma cycle_checked :
  all_range cycle_ok 17 0 && all_range cycle_ok 14 131072 = true.
Proof. vm_compute. reflexivity. Qed.

Lemma cycle_ok_below (r : Z) : 0 <= r < DI400Y -> cycle_ok r = true.
Proof.
  intros H. unfold DI400Y in H.
  destruct (proj1 (andb_true_iff _ _) cycle_checked) as [H1 H2].
  destruct (Z.lt_ge_cases r 131072).
  - apply (all_range_spec cycle_ok 17 0 r H1). simpl. lia.
  - apply (all_range_spec cycle_ok 14 131072 r H2). simpl. lia.
Qed.

Lemma is_leap_shift (y q : Z) : is_leap (y + 400 * q) = is_leap y.
Proof.
  unfold is_leap.
  replace (y + 400 * q) with (y + (100 * q) * 4) at 1 by lia.
  replace (y + 400 * q) with (y + (4 * q) * 100) at 1 by lia.
  replace (y + 400 * q) with (y + q * 400) by lia.
  now rewrite !Z.mod_add by lia.
Qed.

Lemma days_before_year_shift (y q : Z) :
  days_before_year (y + 400 * q) = days_before_year y + DI400Y * q.
Proof.
  unfold days_before_year, DI400Y. cbv zeta.
  replace ((y + 400 * q - 1) / 4) with ((y - 1) / 4 + 100 * q).
  2:{ replace (y + 400 * q - 1) with (y - 1 + (100 * q) * 4) by lia.
      now rewrite Z.div_add by lia. }
  replace ((y + 400 * q - 1) / 100) with ((y - 1) / 100 + 4 * q).
  2:{ replace (y + 400 * q - 1) with (y - 1 + (4 * q) * 100) by lia.
      now rewrite Z.div_add by lia. }
  replace ((y + 400 * q - 1) / 400) with ((y - 1) / 400 + q).
  2:{ replace (y + 400 * q - 1) with (y - 1 + q * 400) by lia.
      now rewrite Z.div_add by lia. }
  lia.
Qed.

Lemma toordinal_shift (q : Z) (d : datetime) :
  toordinal (shift_year (400 * q) d) = toordinal d + DI400Y * q.
Proof.
  unfold toordinal, shift_year, ymd2ord, days_before_month. simpl.
  rewrite is_leap_shift, days_before_year_shift. lia.
Qed.

Lemma valid_month_day_shift (q : Z) (d : datetime) :
  valid_month_day (shift_year (400 * q) d) = valid_month_day d.
Proof.
  unfold valid_month_day, shift_year, days_in_month. simpl.
  now rewrite is_leap_shift.
Qed.

Lemma ord2ymd_cycle (n : Z) :
  ord2ymd n
  = shift_year (400 * ((n - 1) / DI400Y)) (ord2ymd ((n - 1) mod DI400Y + 1)).
Proof.
  assert (Hr : 0 <= (n - 1) mod DI400Y < DI400Y)
    by (apply Z.mod_pos_bound; reflexivity).
  set (r := (n - 1) mod DI400Y) in *. set (q := (n - 1) / DI400Y).
  unfold ord2ymd. cbv zeta.
  replace (r + 1 - 1) with r by lia.
  fold q. fold r.
  rewrite (Z.div_small r DI400Y), (Z.mod_small r DI400Y) by exact Hr.
  repeat match goal with
  | |- (if ?c then _ else _) = _ => destruct c
  end; unfold shift_year; simpl; f_equal; lia.
Qed.

Lemma cycle_ok_elim (r : Z) :
  cycle_ok r = true ->
  toordinal (ord2ymd (r + 1)) = r + 1
  /\ valid_month_day (ord2ymd (r + 1)) = true.
Proof.
  unfold cycle_ok. intros H. apply andb_true_iff in H as [Ho Hv].
  apply Z.eqb_eq in Ho. now split.
Qed.

Lemma ord2ymd_checked (n : Z) :
  toordinal (ord2ymd n) = n /\ valid_month_day (ord2ymd n) = true.
Proof.
  assert (Hr : 0 <= (n - 1) mod DI400Y < DI400Y)
    by (apply Z.mod_pos_bound; reflexivity).
  destruct (cycle_ok_elim _ (cycle_ok_below _ Hr)) as [Ho Hv].
  rewrite ord2ymd_cycle, toordinal_shift, valid_month_day_shift, Ho.
  split; [|exact Hv].
  pose proof (Z.div_mod (n - 1) DI400Y ltac:(discriminate)) as Hdm.
  unfold DI400Y in *. lia.
Qed.

End CalendarFacts.

(* ================================================================== *)
(** * The operation selector                                          *)
(* ================================================================== *)

Section Select.
Import Py Spec.

Lemma select_first (table pre post : list (list string * string))
    (ws : list string) (op text : string) :
  table = (pre ++ (ws, op) :: post)%list ->
  none_match pre text -> any_in ws text = true ->
  select table text = op.
Proof.
  intros -> Hpre Hws. induction Hpre as [|[ws' op'] pre Hg _ IH]; simpl.
  - now rewrite Hws.
  - simpl in Hg. now rewrite Hg.
Qed.

Lemma select_default (table : list (list string * string)) (text : string) :
  none_match table text -> select table text = default_operation.
Proof.
  intros H. induction H as [|[ws op] table Hg _ IH]; simpl; [reflexivity|].
  simpl in Hg. now rewrite Hg.
Qed.

End Select.

Section Identify.
Import Py Re Json Temporal Spec.

Lemma identify_select (q : string) :
  _identify_operation q = select priority (lower q).
Proof.
  unfold _identify_operation, priority, select.
  repeat match goal with
  | |- context [if ?b then _ else _] => destruct b; [reflexivity|]
  end.
  replace (any_in ["leap year"] (lower q)) with (contains "leap year" (lower q))
    by (unfold any_in; simpl; now rewrite orb_false_r).
  now destruct (contains "leap year" (lower q)).
Qed.

Lemma identify_supported (q : string) :
  In (_identify_operation q) supported_operations.
Proof.
  unfold _identify_operation, supported_operations.
  repeat match goal with
  | |- context [if ?b then _ else _] => destruct b
  end; simpl; tauto.
Qed.

(** C6.  For every query the operation is chosen by scanning the
    lower-cased query against the keyword groups in the fixed order
    age, forward, backward, interval, weekday, leap-year phrase: the
    code agrees with the ordered first-match table of the
    specification, the first group with a keyword in the query gives
    the operation, and when no group has one the operation is
    "date_addition". *)
Theorem identify_operation_priority (q : string) :
  _identify_operation q = select priority (lower q)
  /\ (forall pre ws op post,
        priority = (pre ++ (ws, op) :: post)%list ->
        none_match pre (lower q) -> any_in ws (lower q) = true ->
        _identify_operation q = op)
  /\ (none_match priority (lower q) ->
      _identify_operation q = "date_addition").
Proof.
  split; [apply identify_select|]. split.
  - intros pre ws op post Ht Hpre Hws. rewrite identify_select.
    now apply (select_first _ pre post ws).
  - intros H. rewrite identify_select. now apply select_default.
Qed.

(** The theorem above at a query whose first matching group is the
    backward-time one. *)
Lemma identify_operation_priority_witness :
  _identify_operation "How many days BEFORE 01/01/2020" = "date_subtraction".
Proof.
  apply (proj1 (proj2 (identify_operation_priority
                         "How many days BEFORE 01/01/2020"))
           [(["age"; "born"; "birth"], "age_calculation");
            (["later"; "after"; "next"; "add"], "date_addition")]
           ["before"; "ago"; "subtract"] "date_subtraction"
           [(["between"; "interval"; "duration"], "time_interval");
            (["day of week"; "weekday"], "day_of_week");
            (["leap year"], "leap_year_check")]).
  - reflexivity.
  - repeat constructor.
  - vm_compute. reflexivity.
Defined.

End Identify.

(* ================================================================== *)
(** * The leap-year check                                             *)
(* ================================================================== *)

Section LeapYear.
Import Py Re ReSem Json Datetime Temporal Spec.

Lemma den_year_pattern (prev : option ascii) (s t s' : string)
    (caps' : list string) :
  den year_pattern prev s [] t s' caps' <->
  s = t ++ s' /\ caps' = [t]
  /\ String.length t = 4%nat /\ all_in is_digit t = true
  /\ at_boundary prev s = true /\ at_boundary (last_of prev t) s' = true.
Proof.
  unfold year_pattern. simpl. split.
  - intros (t1 & t2 & mid & capsm & (-> & -> & Hb & ->)
            & (t3 & t4 & mid2 & capsm2 & (caps1 & (-> & Hall & Hlo & Hhi & ->) & ->)
               & (-> & -> & Hb2 & ->) & ->) & ->).
    simpl in *. rewrite app_nil_r_str. repeat split; auto. lia.
  - intros (-> & -> & Hl & Hall & Hb & Hb2).
    exists EmptyString, t, (t ++ s'), []. split; [auto|]. split; [|reflexivity].
    exists t, EmptyString, s', [t]. split.
    + exists []. split; [|reflexivity]. repeat split; auto; lia.
    + split; [auto|]. now rewrite app_nil_r_str.
Qed.

Lemma app_same_length (a b c d : string) :
  a ++ b = c ++ d -> String.length a = String.length c -> a = c /\ b = d.
Proof.
  revert c. induction a as [|x a IH]; intros c H Hl.
  - destruct c; [now simpl in H | discriminate].
  - destruct c as [|y c]; [discriminate|]. simpl in H, Hl.
    injection H as <- H. injection Hl as Hl.
    destruct (IH c H Hl) as [-> ->]. now split.
Qed.

Lemma year_match_number (q pre suf : string) (m : rmatch) :
  q = pre ++ suf ->
  match_at year_pattern (last_of None pre) suf = Some m ->
  exists yr post, suf = yr ++ post /\ groups m = [yr]
                  /\ four_digit_number pre yr post.
Proof.
  intros -> H. apply match_at_sound in H as (t & s' & Hd & -> & _).
  apply den_year_pattern in Hd as (_ & Hg & Hl & Hall & Hb & Hb2).
  exists t, s'. split; [reflexivity|]. split; [exact Hg|].
  unfold four_digit_number. rewrite last_of_app. auto.
Qed.

Lemma number_year_match (pre yr post : string) :
  four_digit_number pre yr post ->
  match_at year_pattern (last_of None pre) (yr ++ post) <> None.
Proof.
  intros (Hl & Hall & Hb & Hb2) H.
  apply (match_at_none _ _ _ H yr post [yr]).
  apply den_year_pattern. rewrite last_of_app in Hb2. auto 10.
Qed.

Lemma leap_test_gregorian (y : Z) :
  ((y mod 4 =? 0) && negb (y mod 100 =? 0)) || (y mod 400 =? 0)
  = bool_decide (gregorian_leap y).
Proof.
  unfold gregorian_leap.
  destruct (bool_decide_reflect
              ((y mod 4 = 0 /\ y mod 100 <> 0) \/ y mod 400 = 0)) as [H|H].
  - destruct H as [[H4 H100]|H400].
    + apply Z.eqb_eq in H4. apply Z.eqb_neq in H100. now rewrite H4, H100.
    + apply Z.eqb_eq in H400. rewrite H400. apply orb_true_r.
  - destruct (Z.eqb_spec (y mod 400) 0) as [E|E]; [tauto|].
    destruct (Z.eqb_spec (y mod 4) 0) as [E4|E4]; [|reflexivity].
    destruct (Z.eqb_spec (y mod 100) 0) as [E1|E1]; [reflexivity|tauto].
Qed.

(** The year group of a match is four characters long, so its
    conversion never meets the limit of [int]. *)
Lemma year_match_group (q : string) (m : rmatch) :
  search year_pattern q = Some m ->
  String.length (group 1 m) = 4%nat.
Proof.
  unfold search. intros H.
  apply scan_some in H as (pre & suf & Hq & Hm & _).
  destruct (year_match_number q pre suf m Hq Hm)
    as (yr & post & _ & Hg & (Hl & _)).
  unfold group. now rewrite Hg.
Qed.

Lemma check_leap_year_found (q : string) (m : rmatch) :
  search year_pattern q = Some m ->
  _check_leap_year q = Ok (leap_sentence (int_value (group 1 m))).
Proof.
  intros H. pose proof (year_match_group q m H) as Hl.
  unfold _check_leap_year, leap_sentence. rewrite H.
  rewrite int_short by lia. cbn [bind].
  rewrite leap_test_gregorian. unfold bool_decide, decide.
  now destruct (gregorian_leap_dec _).
Qed.

Lemma check_leap_year_none (q : string) :
  search year_pattern q = None ->
  _check_leap_year q = Ok "Could not extract year".
Proof. intros H. unfold _check_leap_year. now rewrite H. Qed.

(** C8.  [_check_leap_year] takes the first four-digit number of the
    query as the year and answers by the Gregorian rule (leap when
    divisible by 4 and not by 100, or divisible by 400) with the
    sentence "<year> is a leap year" or "<year> is not a leap year";
    without a four-digit number it answers "Could not extract year".
    "is 2000 a leap year" gives "2000 is a leap year", and a query with
    1900 gives "1900 is not a leap year". *)
Theorem check_leap_year_first_number :
  (forall q pre yr post,
      q = pre ++ yr ++ post ->
      four_digit_number pre yr post ->
      (forall pre2 yr2 post2,
          q = pre2 ++ yr2 ++ post2 -> four_digit_number pre2 yr2 post2 ->
          (String.length pre <= String.length pre2)%nat) ->
      _check_leap_year q = Ok (leap_sentence (int_value yr)))
  /\ (forall q,
        (forall pre yr post,
            q = pre ++ yr ++ post -> ~ four_digit_number pre yr post) ->
        _check_leap_year q = Ok "Could not extract year")
  /\ _check_leap_year "is 2000 a leap year" = Ok "2000 is a leap year"
  /\ _check_leap_year "was 1900 a leap year" = Ok "1900 is not a leap year".
Proof.
  split; [|split; [|split; vm_compute; reflexivity]].
  - intros q pre yr post Hq Hnum Hfirst.
    destruct (search year_pattern q) as [m|] eqn:Hs.
    + rewrite (check_leap_year_found q m Hs). do 2 f_equal.
      unfold search in Hs.
      apply scan_some in Hs as (pre' & suf' & Hq' & Hm & Hleft).
      destruct (year_match_number q pre' suf' m Hq' Hm)
        as (yr' & post' & -> & Hg & Hnum').
      pose proof (Hfirst pre' yr' post' Hq' Hnum') as Hle.
      assert (Hlen : String.length pre = String.length pre').
      { destruct (Nat.eq_dec (String.length pre) (String.length pre'))
          as [E|E]; [exact E|].
        exfalso. apply (number_year_match pre yr post Hnum).
        apply (Hleft pre (yr ++ post) Hq). lia. }
      rewrite Hq in Hq'.
      destruct (app_same_length _ _ _ _ Hq' Hlen) as [_ Hrest].
      destruct (app_same_length yr post yr' post' Hrest) as [-> _].
      { destruct Hnum as [-> _], Hnum' as [-> _]. reflexivity. }
      unfold group. now rewrite Hg.
    + exfalso. apply (number_year_match pre yr post Hnum).
      unfold search in Hs. exact (scan_none _ _ _ Hs pre (yr ++ post) Hq).
  - intros q Hno.
    destruct (search year_pattern q) as [m|] eqn:Hs.
    + exfalso. unfold search in Hs.
      apply scan_some in Hs as (pre' & suf' & Hq' & Hm & _).
      destruct (year_match_number q pre' suf' m Hq' Hm)
        as (yr' & post' & -> & _ & Hnum').
      exact (Hno pre' yr' post' Hq' Hnum').
    + exact (check_leap_year_none q Hs).
Qed.

(** The theorem above at a query that starts with the year. *)
Lemma check_leap_year_first_number_witness :
  _check_leap_year "2024: a leap year?" = Ok "2024 is a leap year".
Proof.
  rewrite (proj1 check_leap_year_first_number "2024: a leap year?"
             "" "2024" ": a leap year?").
  - vm_compute. reflexivity.
  - reflexivity.
  - repeat split; vm_compute; reflexivity.
  - intros. simpl. lia.
Defined.

End LeapYear.

(* ================================================================== *)
(** * [process]: queries without a date, and the subtraction stub     *)
(* ================================================================== *)

Section Process.
Import Py Re Json Datetime Temporal Spec.

Lemma process_str (input : gmap string json) (q : string) :
  query_of input = JStr q ->
  process input =
  Ok (response (_identify_operation q)
        (_execute_operation (_identify_operation q) q (context_of input))
        (_calculate_confidence q
           (_execute_operation (_identify_operation q) q (context_of input)))).
Proof. intros H. unfold process. now rewrite H. Qed.

(** C1 (as amended).  For every input whose query is a [str] (or is
    absent) and holds no match of the date pattern, [process] raises
    nothing and returns a response for the operation it selected:
    for age_calculation, time_interval and day_of_week a "Could
    not ..." message with confidence 0.0; for date_subtraction no
    result ([None]) with confidence 0.0; for date_addition the
    message "No date found in query"; for leap_year_check either
    "Could not extract year" with confidence 0.0 or, when a
    four-digit year stands in the query, the leap-year sentence about
    that year. *)
Theorem process_no_date (input : gmap string json) (q : string) :
  query_of input = JStr q ->
  findall date_pattern q = [] ->
  exists operation result confidence,
    process input = Ok (response operation result confidence)
    /\ operation = _identify_operation q
    /\ ((operation = "age_calculation"
         /\ result = Some "Could not extract dates for age calculation"
         /\ confidence = 0.0%float)
        \/ (operation = "time_interval"
            /\ result = Some "Could not extract two dates"
            /\ confidence = 0.0%float)
        \/ (operation = "day_of_week"
            /\ result = Some "Could not extract date"
            /\ confidence = 0.0%float)
        \/ (operation = "date_subtraction"
            /\ result = None /\ confidence = 0.0%float)
        \/ (operation = "date_addition"
            /\ result = Some "No date found in query")
        \/ (operation = "leap_year_check"
            /\ ((result = Some "Could not extract year"
                 /\ confidence = 0.0%float)
                \/ exists m, search year_pattern q = Some m
                     /\ result = Some (leap_sentence (int_value (group 1 m)))))).
Proof.
  intros Hq Hnone.
  assert (Hs : search date_pattern q = None) by now apply findall_nil_search.
  rewrite (process_str _ _ Hq).
  eexists _, _, _. split; [reflexivity|]. split; [reflexivity|].
  pose proof (identify_supported q) as Hop.
  unfold supported_operations in Hop. simpl in Hop.
  destruct Hop as [E|[E|[E|[E|[E|[E|[]]]]]]]; rewrite <- E.
  - (* date_addition *)
    do 4 right. left. split; [reflexivity|].
    unfold _execute_operation. simpl. unfold _add_to_date. now rewrite Hs.
  - do 3 right. left. repeat split; reflexivity.
  - left. unfold _execute_operation. simpl. unfold _calculate_age.
    rewrite Hnone. repeat split; reflexivity.
  - right. left. unfold _execute_operation. simpl. unfold _calculate_interval.
    rewrite Hnone. repeat split; reflexivity.
  - do 2 right. left. unfold _execute_operation. simpl.
    unfold _find_day_of_week. rewrite Hs. repeat split; reflexivity.
  - do 5 right. split; [reflexivity|].
    unfold _execute_operation. simpl.
    destruct (search year_pattern q) as [m|] eqn:Hy.
    + right. exists m. split; [reflexivity|].
      now rewrite (check_leap_year_found q m Hy).
    + left. rewrite (check_leap_year_none q Hy). repeat split; reflexivity.
Qed.

(** The theorem above at the query "which weekday was it". *)
Lemma process_no_date_witness :
  exists operation result confidence,
    process {[ "query" := JStr "which weekday was it" ]}
    = Ok (response operation result confidence)
    /\ operation = "day_of_week"
    /\ result = Some "Could not extract date"
    /\ confidence = 0.0%float.
Proof.
  assert (Hq : query_of {[ "query" := JStr "which weekday was it" ]}
               = JStr "which weekday was it") by (vm_compute; reflexivity).
  assert (Hd : findall date_pattern "which weekday was it" = [])
    by (vm_compute; reflexivity).
  destruct (process_no_date _ _ Hq Hd) as (op & r & c & Hp & Hop & H).
  exists op, r, c. split; [exact Hp|].
  vm_compute in Hop.
  destruct H as [[E _]|[[E _]|[[E H]|[[E _]|[[E _]|[E _]]]]]];
    try (rewrite Hop in E; discriminate E).
  split; [exact E | exact H].
Defined.

(** Two queries without a date whose confidence is not 0.0: the
    leap-year question is answered (confidence [0.7 + 0.2 + 0.1], which
    is 0.9999999999999999 in binary64), and the default date_addition
    answers "No date found in query", a message that holds neither
    "Error" nor "Could not" and so keeps the base confidence 0.7. *)
#[warnings="-inexact-float"]
Lemma process_no_date_confident :
  findall date_pattern "is 2000 a leap year" = []
  /\ process {[ "query" := JStr "is 2000 a leap year" ]}
     = Ok (response "leap_year_check" (Some "2000 is a leap year")
             0.9999999999999999%float)
  /\ findall date_pattern "hello" = []
  /\ process {[ "query" := JStr "hello" ]}
     = Ok (response "date_addition" (Some "No date found in query")
             0.7%float).
Proof. repeat split; vm_compute; reflexivity. Qed.

(** When the selector answers "date_subtraction". *)
Lemma identify_subtraction_iff (q : string) :
  _identify_operation q = "date_subtraction" <->
  any_in ["age"; "born"; "birth"] (lower q) = false
  /\ any_in ["later"; "after"; "next"; "add"] (lower q) = false
  /\ any_in ["before"; "ago"; "subtract"] (lower q) = true.
Proof.
  unfold _identify_operation.
  destruct (any_in ["age"; "born"; "birth"] (lower q));
    [split; [discriminate | intros (?&?&?); discriminate]|].
  destruct (any_in ["later"; "after"; "next"; "add"] (lower q));
    [split; [discriminate | intros (?&?&?); discriminate]|].
  destruct (any_in ["before"; "ago"; "subtract"] (lower q));
    [split; [tauto | reflexivity]|].
  split; [|intros (?&?&?); discriminate].
  repeat match goal with
  | |- context [if ?b then _ else _] => destruct b
  end; discriminate.
Qed.

(** C9.  For every input whose query selects date_subtraction,
    [process] raises nothing and returns operation "date_subtraction"
    with no result ([None], the value of the stub) and confidence 0.0;
    such a query holds one of "before", "ago", "subtract" and none of
    the age-related words. *)
Theorem process_date_subtraction (input : gmap string json) (q : string) :
  query_of input = JStr q ->
  _identify_operation q = "date_subtraction" ->
  process input = Ok (response "date_subtraction" None 0.0%float)
  /\ any_in ["before"; "ago"; "subtract"] (lower q) = true
  /\ any_in ["age"; "born"; "birth"] (lower q) = false.
Proof.
  intros Hq Hop. split.
  - rewrite (process_str _ _ Hq), Hop. reflexivity.
  - apply identify_subtraction_iff in Hop. tauto.
Qed.

(** The theorem above at a query with "BEFORE". *)
Lemma process_date_subtraction_witness :
  process {[ "query" := JStr "What was the date 3 days BEFORE 15/03/2021" ]}
  = Ok (response "date_subtraction" None 0.0%float).
Proof.
  apply (process_date_subtraction
           {[ "query" := JStr "What was the date 3 days BEFORE 15/03/2021" ]}
           "What was the date 3 days BEFORE 15/03/2021");
    vm_compute; reflexivity.
Defined.

End Process.

(* ================================================================== *)
(** * The adapter: conversion, question analysis, loading             *)
(* ================================================================== *)

Section AdapterFacts.
Import Py Json Adapter Spec Samples.

(** C2 (as amended).  For every record, [convert_to_maas_format]
    gives a dictionary whose "id", "question" and "expected_answer"
    are the record's [question_id], [question] and [answer], and whose
    "metadata" holds the record's [domain], [difficulty] and
    [reasoning_steps] unchanged and the constant "MSCoRe" under
    "source". *)
Theorem convert_copies_fields (example : MSCoReExample) :
  let out := JDict (convert_to_maas_format example) in
  getitem out "id" = Ok (question_id example)
  /\ getitem out "question" = Ok (question example)
  /\ getitem out "expected_answer" = Ok (answer example)
  /\ (md <- getitem out "metadata" ;; getitem md "source") = Ok (JStr "MSCoRe")
  /\ (md <- getitem out "metadata" ;; getitem md "domain") = Ok (domain example)
  /\ (md <- getitem out "metadata" ;; getitem md "difficulty")
     = Ok (difficulty example)
  /\ (md <- getitem out "metadata" ;; getitem md "reasoning_steps")
     = Ok (reasoning_steps example).
Proof.
  destruct example as [qid q a steps dom dif].
  repeat split; vm_compute; reflexivity.
Qed.

(** The "source" of a converted record is "MSCoRe", which is not the
    text "source-benchmark". *)
Lemma convert_source_is_MSCoRe :
  (md <- getitem (JDict (convert_to_maas_format sample_example)) "metadata" ;;
   getitem md "source") = Ok (JStr "MSCoRe")
  /\ String.eqb "MSCoRe" "source-benchmark" = false.
Proof. split; vm_compute; reflexivity. Qed.

(** Each flag of the analysis is the keyword test of its category. *)
Lemma analyze_flag (q flag : string) (words : list string) :
  In (flag, words) categories ->
  analyze_question_type q !! flag = Some (any_in words (lower q)).
Proof.
  unfold categories. simpl.
  intros [E|[E|[E|[E|[E|[E|[]]]]]]]; inversion E; subst; clear E;
    unfold analyze_question_type; simplify_map_eq; reflexivity.
Qed.

(** C3 (as amended).  The analysis of "What is 5 + 3?" has
    has_arithmetic true; the analysis of "How old was he in 1990?" has
    has_temporal false, no temporal keyword being part of that text;
    and for every question each flag says whether some keyword of its
    category's list is a substring of the lower-cased question. *)
Theorem analyze_keyword_flags :
  analyze_question_type "What is 5 + 3?" !! "has_arithmetic" = Some true
  /\ analyze_question_type "How old was he in 1990?" !! "has_temporal"
     = Some false
  /\ (forall q flag words, In (flag, words) categories ->
        analyze_question_type q !! flag = Some (any_in words (lower q))
        /\ (analyze_question_type q !! flag = Some true <->
            exists w pre post, In w words /\ lower q = pre ++ w ++ post)).
Proof.
  split; [vm_compute; reflexivity|]. split; [vm_compute; reflexivity|].
  intros q flag words Hin. rewrite (analyze_flag q flag words Hin).
  split; [reflexivity|]. rewrite <- any_in_app.
  split; [now intros [= ->] | now intros ->].
Qed.

(** The theorem above at a question in upper case. *)
Lemma analyze_keyword_flags_witness :
  analyze_question_type "TOTAL AGE" !! "has_temporal" = Some true.
Proof.
  destruct (proj2 (proj2 analyze_keyword_flags)
              "TOTAL AGE" "has_temporal" temporal_keywords) as [H _].
  - vm_compute. tauto.
  - rewrite H. vm_compute. reflexivity.
Defined.

(** "How old was he in 1990?" is not flagged as temporal. *)
Lemma analyze_temporal_counterexample :
  analyze_question_type "How old was he in 1990?" !! "has_temporal"
  = Some false.
Proof. vm_compute. reflexivity. Qed.

End AdapterFacts.

Section Loading.
Import Py Json Adapter Spec Samples.

(** An item without a required field raises [KeyError] for the first
    of "id", "question", "answer" that it lacks. *)
Lemma example_of_lacking (item : json) :
  lacks_required_field item ->
  exists key, In key ["id"; "question"; "answer"]
    /\ example_of item = Raise (KeyError key).
Proof.
  intros (d & -> & H). unfold example_of, getitem.
  destruct (d !! "id") as [vi|].
  - destruct (d !! "question") as [vq|].
    + destruct (d !! "answer") as [va|].
      * destruct H as [H|[H|H]]; discriminate H.
      * exists "answer". simpl. tauto.
    + exists "question". simpl. tauto.
  - exists "id". simpl. tauto.
Qed.

(** Items that load are appended, in order, before the loop goes on. *)
Lemma load_items_app (pre : list json) (exs : list MSCoReExample)
    (rest : list json) (self : MSCoReAdapter) :
  Forall2 (fun it ex => example_of it = Ok ex) pre exs ->
  load_items (pre ++ rest) self
  = load_items rest (MkAdapter (data_path self) (examples self ++ exs)).
Proof.
  intros H. revert self. induction H as [|it ex pre exs Hit _ IH]; intros self.
  - simpl. rewrite app_nil_r. now destruct self.
  - simpl. rewrite Hit, IH. unfold append. simpl.
    now rewrite <- app_assoc.
Qed.

(** C10.  Loading is not atomic: when the items before the k-th load
    and the k-th lacks a required field, [load_data] raises the
    [KeyError] (after logging it) and leaves the adapter holding the
    records of the first k-1 items, appended to what it held. *)
Theorem load_data_not_atomic (read : string -> res json)
    (self : MSCoReAdapter) (log : list log_record) (data : json)
    (pre post : list json) (bad : json) (exs : list MSCoReExample) :
  read (data_path self) = Ok data ->
  getitem data "examples" = Ok (JList (pre ++ bad :: post)) ->
  Forall2 (fun it ex => example_of it = Ok ex) pre exs ->
  lacks_required_field bad ->
  exists key,
    In key ["id"; "question"; "answer"]
    /\ load_data read self log
       = (Raise (KeyError key),
          MkAdapter (data_path self) (examples self ++ exs),
          app log [(ERROR, "Error loading MSCoRe data: '" ++ key ++ "'")])
    /\ length exs = length pre.
Proof.
  intros Hread Hex Hpre Hbad.
  destruct (example_of_lacking bad Hbad) as (key & Hkey & Hraise).
  exists key. split; [exact Hkey|]. split.
  - unfold load_data, load_body. rewrite Hread. simpl. rewrite Hex. simpl.
    rewrite (load_items_app pre exs _ self Hpre). simpl. rewrite Hraise.
    reflexivity.
  - symmetry. eapply Forall2_length. exact Hpre.
Qed.

(** The theorem above for a new adapter and a file whose second item
    has no "question": one record is kept. *)
Lemma load_data_not_atomic_witness :
  exists key,
    In key ["id"; "question"; "answer"]
    /\ __init__ (fun _ => Ok data_second_bad) "mscore.json" []
       = (Raise (KeyError key),
          MkAdapter "mscore.json" [sample_example],
          [(ERROR, "Error loading MSCoRe data: '" ++ key ++ "'")])
    /\ length [sample_example] = 1%nat.
Proof.
  apply (load_data_not_atomic (fun _ => Ok data_second_bad)
           (MkAdapter "mscore.json" []) [] data_second_bad
           [item_full] [item_full] item_no_question [sample_example]).
  - reflexivity.
  - vm_compute. reflexivity.
  - repeat constructor.
  - eexists. split; [reflexivity|]. right. left. vm_compute. reflexivity.
Defined.

End Loading.

(* ================================================================== *)
(** * Operations on two dates: age and interval                       *)
(* ================================================================== *)

Section TwoDates.
Import Py Re Json Datetime Temporal Spec Samples.

Lemma new_ok (y m d : Z) (dt : datetime) :
  Datetime.new y m d = Ok dt -> dt = MkDate y m d.
Proof.
  unfold Datetime.new.
  repeat match goal with
  | |- context [if ?c then _ else _] => destruct c; [discriminate|]
  end.
  now intros [= <-].
Qed.

(** A date built from a tuple of groups has the values of the third,
    second and first group as its year, month and day. *)
Lemma date_of_groups_ok (t : list string) (dt : datetime) :
  date_of_groups t = Ok dt ->
  dt = MkDate (int_value (item 2 t)) (int_value (item 1 t))
              (int_value (item 0 t)).
Proof.
  unfold date_of_groups.
  destruct (int (item 2 t)) as [y|] eqn:Ey; [|discriminate].
  destruct (int (item 1 t)) as [m|] eqn:Em; [|discriminate].
  destruct (int (item 0 t)) as [d|] eqn:Ed; [|discriminate].
  cbn [bind]. intros H. apply new_ok in H.
  apply int_ok in Ey, Em, Ed. now subst.
Qed.

Lemma pair_lt_lex (m2 d2 m1 d1 : Z) :
  pair_lt m2 d2 m1 d1 = true <-> lex_less m2 d2 m1 d1.
Proof. unfold pair_lt, lex_less. lia. Qed.

(** C5 (as amended).  For every query whose first two extracted
    dates are calendar dates, [_calculate_age] takes the first as the
    birth date and the second as the reference date and returns
    "<age> years", where the age is the difference of the years, one
    less exactly when (reference month, reference day) is
    lexicographically less than (birth month, birth day); with fewer
    than two extracted dates it returns "Could not extract dates for
    age calculation"; a query with 01/01/1990 and 01/01/2020 gives
    "30 years". *)
Theorem calculate_age_two_dates :
  (forall q d0 d1 rest birth target,
      findall date_pattern q = d0 :: d1 :: rest ->
      date_of_groups d0 = Ok birth ->
      date_of_groups d1 = Ok target ->
      birth = MkDate (int_value (item 2 d0)) (int_value (item 1 d0))
                     (int_value (item 0 d0))
      /\ target = MkDate (int_value (item 2 d1)) (int_value (item 1 d1))
                         (int_value (item 0 d1))
      /\ exists age,
           _calculate_age q = Ok (str_int age ++ " years")
           /\ (lex_less (month target) (day target) (month birth) (day birth) ->
               age = year target - year birth - 1)
           /\ (~ lex_less (month target) (day target) (month birth) (day birth) ->
               age = year target - year birth))
  /\ (forall q, (length (findall date_pattern q) < 2)%nat ->
        _calculate_age q = Ok "Could not extract dates for age calculation")
  /\ _calculate_age "born 01/01/1990, age on 01/01/2020" = Ok "30 years".
Proof.
  split; [|split].
  - intros q d0 d1 rest birth target Hf Hb Ht.
    split; [exact (date_of_groups_ok _ _ Hb)|].
    split; [exact (date_of_groups_ok _ _ Ht)|].
    unfold _calculate_age. rewrite Hf, Hb. cbn [bind]. rewrite Ht. cbn [bind].
    destruct (pair_lt (month target) (day target) (month birth) (day birth))
      eqn:E.
    + exists (year target - year birth - 1). split; [reflexivity|].
      apply pair_lt_lex in E. split; [reflexivity | tauto].
    + exists (year target - year birth). split; [reflexivity|].
      split; [|reflexivity]. intros H. apply pair_lt_lex in H. congruence.
  - intros q Hlen. unfold _calculate_age.
    destruct (findall date_pattern q) as [|d0 [|d1 rest]]; try reflexivity.
    simpl in Hlen. lia.
  - vm_compute. reflexivity.
Qed.

(** The theorem above at a birth date in June and a reference date
    in March. *)
Lemma calculate_age_two_dates_witness :
  _calculate_age "born 15/06/1990, age on 01/03/2020" = Ok "29 years".
Proof.
  assert (Hf : findall date_pattern "born 15/06/1990, age on 01/03/2020"
               = [["15"; "06"; "1990"]; ["01"; "03"; "2020"]])
    by (vm_compute; reflexivity).
  assert (Hb : date_of_groups ["15"; "06"; "1990"] = Ok (MkDate 1990 6 15))
    by (vm_compute; reflexivity).
  assert (Ht : date_of_groups ["01"; "03"; "2020"] = Ok (MkDate 2020 3 1))
    by (vm_compute; reflexivity).
  destruct (proj1 calculate_age_two_dates _ _ _ _ _ _ Hf Hb Ht)
    as (_ & _ & age & Hres & Hlt & _).
  rewrite Hres, Hlt; [vm_compute; reflexivity|].
  left. vm_compute. reflexivity.
Defined.

(** Two dates are extracted, the first is 31 February: building the
    birth date raises, no age is returned, and [process] reports the
    error. *)
Lemma calculate_age_invalid_date :
  findall date_pattern query_february_31
  = [["31"; "02"; "1990"]; ["01"; "01"; "2020"]]
  /\ _calculate_age query_february_31
     = Raise (ValueError "day is out of range for month")
  /\ process {[ "query" := JStr query_february_31 ]}
     = Ok (response "age_calculation"
             (Some "Error in temporal operation: day is out of range for month")
             0.0%float).
Proof. repeat split; vm_compute; reflexivity. Qed.

End TwoDates.

Section Interval.
Import Py Re Json Datetime Temporal Spec Samples.

Lemma interval_parts (years months days : Z) :
  0 <= years -> 0 <= months -> 0 <= days ->
  (let parts := [] in
   let parts :=
     if 0 <? years
     then app parts [str_int years ++ " year" ++ plural years]
     else parts in
   let parts :=
     if 0 <? months
     then app parts [str_int months ++ " month" ++ plural months]
     else parts in
   let parts :=
     if (0 <? days) || (match parts with [] => true | _ => false end)
     then app parts [str_int days ++ " day" ++ plural days]
     else parts in
   join ", " parts)
  = interval_text years months days.
Proof.
  intros Hy Hm Hd. unfold interval_text, shown, part, plural.
  cbv zeta.
  destruct (Z.ltb_spec 0 years), (Z.ltb_spec 0 months), (Z.ltb_spec 0 days);
    repeat (destruct (decide _) as [?|?]); try lia; try reflexivity.
Qed.

(** C7 (as amended).  For every query whose first two extracted
    dates are calendar dates, [_calculate_interval] takes the absolute
    difference d of their day numbers and reports d div 365 years,
    (d mod 365) div 30 months and (d mod 365) mod 30 days, leaving out
    a unit whose value is zero, except that the days are shown when
    years and months are both zero. *)
Theorem calculate_interval_two_dates :
  forall q d0 d1 rest date1 date2,
    findall date_pattern q = d0 :: d1 :: rest ->
    date_of_groups d0 = Ok date1 ->
    date_of_groups d1 = Ok date2 ->
    let d := Z.abs (toordinal date2 - toordinal date1) in
    _calculate_interval q
    = Ok (interval_text (d / 365) ((d mod 365) / 30) ((d mod 365) mod 30)).
Proof.
  intros q d0 d1 rest date1 date2 Hf H1 H2 d.
  unfold _calculate_interval. rewrite Hf, H1. cbn [bind]. rewrite H2.
  cbn [bind].
  unfold sub_days. fold d. f_equal.
  apply interval_parts.
  - apply Z.div_pos; [apply Z.abs_nonneg | lia].
  - apply Z.div_pos; [|lia]. apply Z.mod_pos_bound. lia.
  - apply Z.mod_pos_bound. lia.
Qed.

(** The theorem above at two dates 439 days apart. *)
Lemma calculate_interval_two_dates_witness :
  _calculate_interval "between 01/01/2020 and 15/03/2021"
  = Ok "1 year, 2 months, 14 days".
Proof.
  assert (Hf : findall date_pattern "between 01/01/2020 and 15/03/2021"
               = [["01"; "01"; "2020"]; ["15"; "03"; "2021"]])
    by (vm_compute; reflexivity).
  assert (H1 : date_of_groups ["01"; "01"; "2020"] = Ok (MkDate 2020 1 1))
    by (vm_compute; reflexivity).
  assert (H2 : date_of_groups ["15"; "03"; "2021"] = Ok (MkDate 2021 3 15))
    by (vm_compute; reflexivity).
  rewrite (calculate_interval_two_dates _ _ _ _ _ _ Hf H1 H2).
  vm_compute. reflexivity.
Defined.

(** Two dates are extracted, the first is 31 February: building it
    raises, no interval is returned, and [process] reports the
    error. *)
Lemma calculate_interval_invalid_date :
  findall date_pattern "interval between 31/02/2020 and 01/01/2021"
  = [["31"; "02"; "2020"]; ["01"; "01"; "2021"]]
  /\ _calculate_interval "interval between 31/02/2020 and 01/01/2021"
     = Raise (ValueError "day is out of range for month")
  /\ process {[ "query" := JStr "interval between 31/02/2020 and 01/01/2021" ]}
     = Ok (response "time_interval"
             (Some "Error in temporal operation: day is out of range for month")
             0.0%float).
Proof. repeat split; vm_compute; reflexivity. Qed.

End Interval.

(* ================================================================== *)
(** * Adding to a date                                                *)
(* ================================================================== *)

Section Addition.
Import Py Re ReSem Json Datetime Calendar Temporal Spec.

Lemma int_acc_nonneg (t : string) (acc : Z) :
  all_in is_digit t = true -> 0 <= acc -> 0 <= int_acc acc t.
Proof.
  revert acc. induction t as [|a t IH]; intros acc Hall Hacc; simpl.
  - exact Hacc.
  - simpl in Hall. apply andb_true_iff in Hall as [Ha Hall].
    apply IH; [exact Hall|].
    unfold is_digit, between in Ha. apply andb_true_iff in Ha as [Hlo _].
    apply N.leb_le in Hlo. unfold digit_val. lia.
Qed.

Lemma int_nonneg (t : string) :
  all_in is_digit t = true -> 0 <= int_value t.
Proof. intros H. apply int_acc_nonneg; [exact H | lia]. Qed.

(** The groups of a date match are at most two, two and four
    characters long, so their conversion never meets the limit of
    [int]. *)
Lemma date_match_groups (s : string) (dm : rmatch) :
  search date_pattern s = Some dm ->
  (String.length (group 1 dm) <= 2
   /\ String.length (group 2 dm) <= 2
   /\ String.length (group 3 dm) <= 4)%nat.
Proof.
  unfold search. intros H.
  apply scan_some in H as (pre & suf & _ & H & _).
  apply match_at_sound in H as (t & s' & Hd & _ & _).
  unfold date_pattern in Hd. simpl in Hd.
  destruct Hd as (? & ? & ? & ? & (_ & _ & _ & ->)
    & (? & ? & ? & ? & (? & (_ & _ & _ & Hw1 & ->) & ->)
       & (? & ? & ? & ? & (? & _ & _ & _ & ->)
          & (? & ? & ? & ? & (? & (_ & _ & _ & Hw2 & ->) & ->)
             & (? & ? & ? & ? & (? & _ & _ & _ & ->)
                & (? & ? & ? & ? & (? & (_ & _ & _ & Hw3 & ->) & ->)
                   & (_ & _ & _ & Hg) & _) & _) & _) & _) & _) & _).
  unfold group. rewrite Hg. simpl in *. lia.
Qed.

Lemma duration_match (s : string) (um : rmatch) :
  search duration_pattern s = Some um ->
  all_in is_digit (group 1 um) = true
  /\ (group 2 um = "day" \/ group 2 um = "month" \/ group 2 um = "year").
Proof.
  unfold search. intros H.
  apply scan_some in H as (pre & suf & _ & H & _).
  apply match_at_sound in H as (t & s' & Hd & _ & _).
  unfold duration_pattern in Hd. simpl in Hd.
  destruct Hd as (t1 & t2 & mid & capsm & (caps1 & (_ & Hall & _ & _ & ->) & ->)
                  & (t3 & t4 & mid2 & capsm2 & (_ & _ & _ & _ & ->)
                     & (t5 & t6 & mid3 & capsm3 & (caps3 & Hunit & ->)
                        & (_ & _ & _ & _ & Hg) & _) & _) & _).
  unfold group. rewrite Hg.
  destruct Hunit as [(-> & _ & ->)|[(-> & _ & ->)|(-> & _ & ->)]];
    simpl; auto.
Qed.

Lemma new_ok_iff (y m d : Z) (dt : datetime) :
  Datetime.new y m d = Ok dt <->
  dt = MkDate y m d
  /\ MINYEAR <= y <= MAXYEAR /\ 1 <= m <= 12 /\ 1 <= d <= days_in_month y m.
Proof.
  unfold Datetime.new.
  destruct ((MINYEAR <=? y) && (y <=? MAXYEAR)) eqn:Ey; simpl.
  - destruct ((1 <=? m) && (m <=? 12)) eqn:Em; simpl.
    + destruct ((1 <=? d) && (d <=? days_in_month y m)) eqn:Ed; simpl.
      * split; [intros [= <-]; split; [reflexivity|]; lia|].
        now intros (-> & _).
      * split; [discriminate|]. intros (_ & _ & _ & H). lia.
    + split; [discriminate|]. intros (_ & _ & H & _). lia.
  - split; [discriminate|]. intros (_ & H & _). lia.
Qed.

Lemma days_in_month_ge_28 (y m : Z) :
  1 <= m <= 12 -> 28 <= days_in_month y m.
Proof.
  intros H. unfold days_in_month.
  assert (m = 1 \/ m = 2 \/ m = 3 \/ m = 4 \/ m = 5 \/ m = 6 \/ m = 7
          \/ m = 8 \/ m = 9 \/ m = 10 \/ m = 11 \/ m = 12) as Hm by lia.
  repeat (destruct Hm as [->|Hm]); try subst m;
    destruct (is_leap y); vm_compute; discriminate.
Qed.

Lemma toordinal_pos (y m d : Z) :
  MINYEAR <= y -> 1 <= m <= 12 -> 1 <= d -> 1 <= ymd2ord y m d.
Proof.
  unfold MINYEAR. intros Hy Hm Hd. unfold ymd2ord.
  assert (0 <= days_before_year y).
  { unfold days_before_year. cbv zeta. Z.div_mod_to_equations. lia. }
  assert (0 <= days_before_month y m).
  { unfold days_before_month.
    assert (m = 1 \/ m = 2 \/ m = 3 \/ m = 4 \/ m = 5 \/ m = 6 \/ m = 7
            \/ m = 8 \/ m = 9 \/ m = 10 \/ m = 11 \/ m = 12) as Hm' by lia.
    repeat (destruct Hm' as [->|Hm']); try subst m;
      destruct (is_leap y); vm_compute; discriminate. }
  lia.
Qed.

(** [_add_to_date] once the date and the duration are found: the
    three date groups convert, then the base date is built and the
    amount converted. *)
Lemma add_to_date_steps (q : string) (dm um : rmatch) :
  search date_pattern q = Some dm ->
  search duration_pattern (lower q) = Some um ->
  _add_to_date q
  = let day := int_value (group 1 dm) in
    let month := int_value (group 2 dm) in
    let year := int_value (group 3 dm) in
    base_date <- Datetime.new year month day ;;
    amount <- int (group 1 um) ;;
    let unit := group 2 um in
    let format (made : res datetime) : res string :=
      new_date <- made ;; Ok (strftime_B_d_Y new_date) in
    if String.eqb unit "day" then
      format (delta <- timedelta amount ;; Datetime.add base_date delta)
    else if String.eqb unit "month" then
      format (Datetime.new (year + (month + amount - 1) / 12)
                ((month + amount - 1) mod 12 + 1) (Z.min day 28))
    else if String.eqb unit "year" then
      format (Datetime.new (year + amount) month (Z.min day 28))
    else Ok ("Unknown unit: " ++ unit).
Proof.
  intros Hdm Hum. unfold _add_to_date.
  destruct (date_match_groups q dm Hdm) as (L1 & L2 & L3).
  rewrite Hdm. rewrite !int_short by lia. cbn [bind]. cbv zeta.
  destruct (Datetime.new _ _ _) as [base|e]; [|reflexivity].
  cbn [bind]. now rewrite Hum.
Qed.

Lemma format_inv (made : res datetime) (text : string) :
  (new_date <- made ;; Ok (strftime_B_d_Y new_date)) = Ok text ->
  exists dt, made = Ok dt /\ text = strftime_B_d_Y dt.
Proof.
  destruct made as [dt|e]; [|discriminate].
  cbn [bind]. intros [= <-]. now exists dt.
Qed.

Lemma format_ok (dt : datetime) :
  (new_date <- Ok dt ;; Ok (strftime_B_d_Y new_date))
  = Ok (strftime_B_d_Y dt).
Proof. reflexivity. Qed.

Lemma new_clamped (y m d : Z) :
  MINYEAR <= y <= MAXYEAR -> 1 <= m <= 12 -> 1 <= d ->
  Datetime.new y m (Z.min d 28) = Ok (MkDate y m (Z.min d 28)).
Proof.
  intros Hy Hm Hd. apply new_ok_iff. split; [reflexivity|].
  pose proof (days_in_month_ge_28 y m Hm). lia.
Qed.

Lemma add_days_exact (base : datetime) (amount : Z) :
  MINYEAR <= year base -> 1 <= month base <= 12 -> 1 <= day base ->
  0 <= amount <= 999999999 ->
  toordinal base + amount <= MAXORDINAL ->
  (delta <- timedelta amount ;; Datetime.add base delta)
  = Ok (ord2ymd (toordinal base + amount)).
Proof.
  intros Hy Hm Hd Ha Hord. unfold timedelta.
  replace (999999999 <? Z.abs amount) with false by lia.
  cbn [bind]. unfold Datetime.add.
  pose proof (toordinal_pos _ _ _ Hy Hm Hd) as Hpos.
  fold (toordinal base) in Hpos.
  replace ((1 <=? toordinal base + amount)
           && (toordinal base + amount <=? MAXORDINAL)) with true by lia.
  reflexivity.
Qed.

(** C4.  In [_add_to_date], for a query with a date and a duration:
    adding months or years gives the day min(day, 28) of the month
    reached by carrying months into years (so day 31 plus one month is
    day 28 of the next month), and adding days gives the date whose
    day number is that of the base date plus the amount.  Whatever
    date text the operation returns is that date, and it does return
    it when the base date is a calendar date, [int] converts the amount
    and the result stays within the years [datetime] supports; "what
    is 10 days after 15/03/2021" gives "March 25, 2021". *)
Theorem add_to_date_clamps :
  (forall q dm um,
      search date_pattern q = Some dm ->
      search duration_pattern (lower q) = Some um ->
      let d := int_value (group 1 dm) in
      let m := int_value (group 2 dm) in
      let y := int_value (group 3 dm) in
      let amount := int_value (group 1 um) in
      let total := m + amount - 1 in
      let in_range :=
        Datetime.new y m d = Ok (MkDate y m d)
        /\ int (group 1 um) = Ok amount in
      0 <= amount
      /\ (group 2 um = "month" ->
          let clamped :=
            MkDate (y + total / 12) (total mod 12 + 1) (Z.min d 28) in
          (forall text, _add_to_date q = Ok text ->
                        text = strftime_B_d_Y clamped)
          /\ (in_range -> y + total / 12 <= MAXYEAR ->
              _add_to_date q = Ok (strftime_B_d_Y clamped)))
      /\ (group 2 um = "year" ->
          let clamped := MkDate (y + amount) m (Z.min d 28) in
          (forall text, _add_to_date q = Ok text ->
                        text = strftime_B_d_Y clamped)
          /\ (in_range -> y + amount <= MAXYEAR ->
              _add_to_date q = Ok (strftime_B_d_Y clamped)))
      /\ (group 2 um = "day" ->
          let new_date := ord2ymd (ymd2ord y m d + amount) in
          toordinal new_date = ymd2ord y m d + amount
          /\ valid_month_day new_date = true
          /\ (forall text, _add_to_date q = Ok text ->
                           text = strftime_B_d_Y new_date)
          /\ (in_range -> amount <= 999999999 ->
              ymd2ord y m d + amount <= MAXORDINAL ->
              _add_to_date q = Ok (strftime_B_d_Y new_date))))
  /\ _add_to_date "what is 10 days after 15/03/2021" = Ok "March 25, 2021"
  /\ _add_to_date "what is 1 month after 31/01/2021" = Ok "February 28, 2021".
Proof.
  split; [|split; vm_compute; reflexivity].
  intros q dm um Hdm Hum. cbv zeta.
  destruct (duration_match _ _ Hum) as [Hdig _].
  pose proof (int_nonneg _ Hdig) as Hamount. clear Hdig.
  rewrite (add_to_date_steps q dm um Hdm Hum). cbv zeta.
  clear Hdm Hum.
  set (d := int_value (group 1 dm)). set (m := int_value (group 2 dm)).
  set (y := int_value (group 3 dm)). clearbody d m y.
  set (amount := int_value (group 1 um)) in *.
  assert (Hint : forall a, int (group 1 um) = Ok a -> a = amount)
    by (intros a Ha; exact (int_ok _ _ Ha)).
  clearbody amount.
  set (unit := group 2 um). set (number := int (group 1 um)) in *.
  clearbody unit number. clear dm um.
  split; [exact Hamount|]. split; [|split].
  - intros ->.
    change (String.eqb "month" "day") with false.
    change (String.eqb "month" "month") with true. cbv iota. split.
    + intros text H.
      destruct (Datetime.new y m d) as [base|]; [|discriminate].
      destruct number as [a|]; [|discriminate]. cbn [bind] in H.
      rewrite (Hint a eq_refl) in H.
      apply format_inv in H as (dt & Hdt & ->).
      now rewrite (new_ok _ _ _ _ Hdt).
    + intros [Hbase Hnum] Hmax. rewrite Hbase, Hnum. cbn [bind].
      apply new_ok_iff in Hbase as (_ & Hy & Hm & Hd).
      rewrite new_clamped; [apply format_ok| | |lia].
      * assert (0 <= (m + amount - 1) / 12) by (apply Z.div_pos; lia).
        unfold MINYEAR in *. lia.
      * assert (0 <= (m + amount - 1) mod 12 < 12)
          by (apply Z.mod_pos_bound; lia).
        lia.
  - intros ->.
    change (String.eqb "year" "day") with false.
    change (String.eqb "year" "month") with false.
    change (String.eqb "year" "year") with true. cbv iota. split.
    + intros text H.
      destruct (Datetime.new y m d) as [base|]; [|discriminate].
      destruct number as [a|]; [|discriminate]. cbn [bind] in H.
      rewrite (Hint a eq_refl) in H.
      apply format_inv in H as (dt & Hdt & ->).
      now rewrite (new_ok _ _ _ _ Hdt).
    + intros [Hbase Hnum] Hmax. rewrite Hbase, Hnum. cbn [bind].
      apply new_ok_iff in Hbase as (_ & Hy & Hm & Hd).
      rewrite new_clamped; [apply format_ok| |exact Hm|lia].
      unfold MINYEAR in *. lia.
  - intros ->.
    change (String.eqb "day" "day") with true. cbv iota.
    destruct (ord2ymd_checked (ymd2ord y m d + amount)) as [Hord Hvalid].
    split; [exact Hord|]. split; [exact Hvalid|]. split.
    + intros text H.
      destruct (Datetime.new y m d) as [base|] eqn:Hbase; [|discriminate].
      destruct number as [a|]; [|discriminate]. cbn [bind] in H.
      rewrite (Hint a eq_refl) in H.
      apply format_inv in H as (dt & Hdt & ->).
      apply new_ok in Hbase. subst base.
      unfold timedelta in Hdt.
      destruct (999999999 <? Z.abs amount); [discriminate|].
      cbn [bind] in Hdt. unfold Datetime.add, toordinal in Hdt.
      cbn [year month day] in Hdt.
      destruct ((1 <=? ymd2ord y m d + amount)
                && (ymd2ord y m d + amount <=? MAXORDINAL));
        [|discriminate].
      now injection Hdt as <-.
    + intros [Hbase Hnum] Hsmall Hmax. rewrite Hbase, Hnum. cbn [bind].
      apply new_ok_iff in Hbase as (_ & Hy & Hm & Hd).
      rewrite add_days_exact; [apply format_ok|..];
        cbn [year month day]; unfold toordinal; cbn [year month day]; lia.
Qed.

(** The theorem above for two months added to 31 December 2021. *)
Lemma add_to_date_clamps_witness :
  _add_to_date "add 2 months to 31/12/2021" = Ok "February 28, 2022".
Proof.
  assert (Hdm : search date_pattern "add 2 months to 31/12/2021"
                = Some (MkMatch ["31"; "12"; "2021"] 10))
    by (vm_compute; reflexivity).
  assert (Hum : search duration_pattern (lower "add 2 months to 31/12/2021")
                = Some (MkMatch ["2"; "month"] 8))
    by (vm_compute; reflexivity).
  destruct (proj1 add_to_date_clamps _ _ _ Hdm Hum) as (_ & Hmonth & _).
  destruct (Hmonth eq_refl) as [_ Hreturns].
  rewrite Hreturns.
  - vm_compute. reflexivity.
  - split; vm_compute; reflexivity.
  - vm_compute. discriminate.
Defined.

(** One month added to 31 December 9999: the month carries into the
    year 10000, which [datetime] refuses, so no clamped date is
    returned and [process] reports the error. *)
Lemma add_to_date_beyond_9999 :
  search date_pattern "add 1 month to 31/12/9999"
  = Some (MkMatch ["31"; "12"; "9999"] 10)
  /\ search duration_pattern (lower "add 1 month to 31/12/9999")
     = Some (MkMatch ["1"; "month"] 7)
  /\ _add_to_date "add 1 month to 31/12/9999"
     = Raise (ValueError "year 10000 is out of range")
  /\ process {[ "query" := JStr "add 1 month to 31/12/9999" ]}
     = Ok (response "date_addition"
             (Some "Error in temporal operation: year 10000 is out of range")
             0.0%float).
Proof. repeat split; vm_compute; reflexivity. Qed.

End Addition.

(* ================================================================== *)
(** * Further properties of the two files                             *)
(* ================================================================== *)
Section Further.
Import Py Re Json Datetime Adapter Temporal Spec Samples.

(** X1.  [batch_convert] keeps the count and the order of its input (the
    loaded records when no list is given): the i-th output is the
    conversion of the i-th input. *)
Theorem batch_convert_preserves_order (self : MSCoReAdapter)
    (examples_arg : option (list MSCoReExample)) :
  let inputs := match examples_arg with
                | None => examples self
                | Some l => l
                end in
  length (batch_convert self examples_arg) = length inputs
  /\ forall i, nth_error (batch_convert self examples_arg) i
               = option_map convert_to_maas_format (nth_error inputs i).
Proof.
  cbv zeta. unfold batch_convert. split.
  - apply length_map.
  - intros i. apply nth_error_map.
Qed.

(** X2.  The confidence of every result lies between 0.0 and 1.0. *)
Theorem confidence_in_unit_interval (query : string)
    (result : option string) :
  PrimFloat.leb 0%float (_calculate_confidence query result) = true
  /\ PrimFloat.leb (_calculate_confidence query result) 1%float = true.
Proof.
  unfold _calculate_confidence. destruct result as [text|].
  - destruct (contains "Error" text || contains "Could not" text).
    + split; vm_compute; reflexivity.
    + cbv zeta.
      destruct (any_in ["year"; "month"; "day"; "Monday"; "Tuesday"] text);
        destruct (search digits_pattern text);
        split; vm_compute; reflexivity.
  - split; vm_compute; reflexivity.
Qed.



(** X4.  When the file is read and every item loads, [load_data] appends
    the records in the order of the file and logs their number. *)
Theorem load_data_all (read : string -> res json) (self : MSCoReAdapter)
    (log : list log_record) (data : json) (items : list json)
    (exs : list MSCoReExample) :
  read (data_path self) = Ok data ->
  getitem data "examples" = Ok (JList items) ->
  Forall2 (fun it ex => example_of it = Ok ex) items exs ->
  load_data read self log
  = (Ok tt,
     MkAdapter (data_path self) (examples self ++ exs),
     app log [(INFO, "Loaded " ++ str_len (examples self ++ exs)%list
                     ++ " examples from MSCoRe")]).
Proof.
  intros Hread Hex Hitems. unfold load_data, load_body.
  rewrite Hread. cbn [bind]. rewrite Hex. cbn [bind iterate].
  rewrite <- (app_nil_r items).
  rewrite (load_items_app items exs [] self Hitems). reflexivity.
Qed.

(** The theorem above for a new adapter and a file of one item. *)
Lemma load_data_all_witness :
  __init__ (fun _ => Ok (JDict {[ "examples" := JList [item_full] ]}))
           "mscore.json" []
  = (Ok tt, MkAdapter "mscore.json" [sample_example],
     [(INFO, "Loaded 1 examples from MSCoRe")]).
Proof.
  apply (load_data_all
           (fun _ => Ok (JDict {[ "examples" := JList [item_full] ]}))
           (MkAdapter "mscore.json" []) []
           (JDict {[ "examples" := JList [item_full] ]})
           [item_full] [sample_example]).
  - reflexivity.
  - vm_compute. reflexivity.
  - repeat constructor.
Defined.

End Further.
(* ================================================================== *)
(** * From a date to its day number and back                          *)
(* ================================================================== *)

Section DateCycleFacts.
Import Py Datetime Calendar DateCycle.

Lemma all_years_spec (f : Z -> bool) (y : Z) :
  all_years f = true -> 1 <= y <= 400 -> f y = true.
Proof.
  unfold all_years. intros H Hy.
  apply andb_true_iff in H as [H H3]. apply andb_true_iff in H as [H1 H2].
  destruct (Z.lt_ge_cases y 257);
    [apply (all_range_spec f 8 1 y H1); simpl; lia|].
  destruct (Z.lt_ge_cases y 385);
    [apply (all_range_spec f 7 257 y H2); simpl; lia|].
  apply (all_range_spec f 4 385 y H3). simpl. lia.
Qed.

Lemma all_months_spec (f : Z -> bool) (m : Z) :
  all_months f = true -> 1 <= m <= 12 -> f m = true.
Proof.
  unfold all_months. intros H Hm. apply andb_true_iff in H as [H1 H2].
  destruct (Z.lt_ge_cases m 9);
    [apply (all_range_spec f 3 1 m H1); simpl; lia|].
  apply (all_range_spec f 2 9 m H2). simpl. lia.
Qed.

Lemma all_days_spec (f : Z -> bool) (d : Z) :
  all_days f = true -> 0 <= d <= 31 -> f d = true.
Proof.
  unfold all_days. intros H Hd.
  apply (all_range_spec f 5 0 d H). simpl. lia.
Qed.

(** Every date of the years 1 to 400, by computation. *)
Lemma dates_checked :
  all_years (fun y => all_months (fun m => all_days (date_ok y m))) = true.
Proof. vm_compute. reflexivity. Qed.

Lemma date_ok_cycle (y m d : Z) :
  1 <= y <= 400 -> 1 <= m <= 12 -> 0 <= d <= 31 -> date_ok y m d = true.
Proof.
  intros Hy Hm Hd.
  apply (all_days_spec (date_ok y m) d); [|exact Hd].
  apply (all_months_spec (fun m => all_days (date_ok y m)) m); [|exact Hm].
  apply (all_years_spec
           (fun y => all_months (fun m => all_days (date_ok y m))) y);
    [|exact Hy].
  exact dates_checked.
Qed.

Lemma days_in_month_le_31 (y m : Z) : days_in_month y m <= 31.
Proof.
  unfold days_in_month.
  destruct ((m =? 2) && is_leap y); [lia|].
  unfold month_entry, DAYS_IN_MONTH.
  destruct (Z.to_nat (m - 1)) as [|[|[|[|[|[|[|[|[|[|[|[|[|n]]]]]]]]]]]]];
    simpl; lia.
Qed.

Lemma date_ok_unfold (y m d : Z) :
  date_ok y m d
  = negb (valid_month_day (MkDate y m d))
    || (date_eqb (ord2ymd (ymd2ord y m d)) (MkDate y m d)
        && (1 <=? ymd2ord y m d) && (ymd2ord y m d <=? DI400Y)).
Proof. reflexivity. Qed.

Lemma date_eqb_eq (a b : datetime) : date_eqb a b = true -> a = b.
Proof.
  destruct a, b. unfold date_eqb. cbn [year month day]. intros H.
  f_equal; lia.
Qed.

Lemma date_ok_elim (y m d : Z) :
  1 <= y <= 400 -> valid_month_day (MkDate y m d) = true ->
  ord2ymd (ymd2ord y m d) = MkDate y m d
  /\ 1 <= ymd2ord y m d <= DI400Y.
Proof.
  intros Hy Hv.
  assert (Hmd : 1 <= m <= 12 /\ 0 <= d <= 31).
  { unfold valid_month_day in Hv. cbn [year month day] in Hv.
    pose proof (days_in_month_le_31 y m). lia. }
  pose proof (date_ok_cycle y m d Hy (proj1 Hmd) (proj2 Hmd)) as Hok.
  rewrite date_ok_unfold, Hv in Hok.
  destruct (date_eqb (ord2ymd (ymd2ord y m d)) (MkDate y m d)) eqn:Heq;
    [|discriminate Hok].
  destruct (1 <=? ymd2ord y m d) eqn:Hlo; [|discriminate Hok].
  destruct (ymd2ord y m d <=? DI400Y) eqn:Hhi; [|discriminate Hok].
  clear Hok. split; [exact (date_eqb_eq _ _ Heq) | lia].
Qed.

Lemma ord2ymd_shift (n q : Z) :
  1 <= n <= DI400Y ->
  ord2ymd (n + DI400Y * q) = shift_year (400 * q) (ord2ymd n).
Proof.
  intros Hn. rewrite ord2ymd_cycle.
  assert (E : n + DI400Y * q - 1 = DI400Y * q + (n - 1)) by lia.
  assert (Hr : 0 <= n - 1 < DI400Y) by lia.
  rewrite <- (Z.div_unique (n + DI400Y * q - 1) DI400Y q (n - 1))
    by (try (left; exact Hr); exact E).
  rewrite <- (Z.mod_unique (n + DI400Y * q - 1) DI400Y q (n - 1))
    by (try (left; exact Hr); exact E).
  now replace (n - 1 + 1) with n by lia.
Qed.

Lemma ymd2ord_shift (y m d q : Z) :
  ymd2ord (y + 400 * q) m d = ymd2ord y m d + DI400Y * q.
Proof. exact (toordinal_shift q (MkDate y m d)). Qed.

(** The date of the day number of a calendar date is that date. *)
Lemma ord2ymd_ymd2ord (y m d : Z) :
  valid_month_day (MkDate y m d) = true ->
  ord2ymd (ymd2ord y m d) = MkDate y m d.
Proof.
  intros Hv.
  pose proof (Z.mod_pos_bound (y - 1) 400 ltac:(lia)) as Hb.
  pose proof (Z.div_mod (y - 1) 400 ltac:(lia)) as Hdm.
  remember ((y - 1) / 400) as q eqn:Eq.
  remember ((y - 1) mod 400 + 1) as y0 eqn:Ey0.
  assert (Ey : y = y0 + 400 * q) by lia.
  assert (Hy0 : 1 <= y0 <= 400) by lia.
  clear Eq Ey0 Hb Hdm. subst y.
  assert (Hv0 : valid_month_day (MkDate y0 m d) = true).
  { rewrite <- (valid_month_day_shift q (MkDate y0 m d)). exact Hv. }
  destruct (date_ok_elim y0 m d Hy0 Hv0) as [E0 Hn0].
  rewrite ymd2ord_shift, (ord2ymd_shift _ q Hn0), E0.
  reflexivity.
Qed.

(** The last day of a month is no later than the last day of its year. *)
Lemma month_end_le (m : Z) (leap : bool) :
  1 <= m <= 12 ->
  month_entry DAYS_BEFORE_MONTH m + (if (2 <? m) && leap then 1 else 0)
  + (if (m =? 2) && leap then 29 else month_entry DAYS_IN_MONTH m)
  <= 365 + (if leap then 1 else 0).
Proof.
  intros Hm.
  assert (m = 1 \/ m = 2 \/ m = 3 \/ m = 4 \/ m = 5 \/ m = 6 \/ m = 7
          \/ m = 8 \/ m = 9 \/ m = 10 \/ m = 11 \/ m = 12) as H by lia.
  destruct leap;
    repeat (destruct H as [H|H]); subst m; vm_compute; discriminate.
Qed.

Lemma day_of_year_le (y m d : Z) :
  valid_month_day (MkDate y m d) = true ->
  days_before_month y m + d <= 365 + (if is_leap y then 1 else 0).
Proof.
  unfold valid_month_day. cbn [year month day]. intros Hv.
  apply andb_true_iff in Hv as [Hv Hd4]. apply andb_true_iff in Hv as [Hv Hd3].
  apply andb_true_iff in Hv as [Hm1 Hm2].
  apply Z.leb_le in Hm1, Hm2, Hd3, Hd4.
  pose proof (month_end_le m (is_leap y) (conj Hm1 Hm2)) as H.
  unfold days_before_month, days_in_month in *. lia.
Qed.

Lemma year_end_le (y : Z) :
  y <= MAXYEAR ->
  days_before_year y + 365 + (if is_leap y then 1 else 0) <= MAXORDINAL.
Proof.
  unfold MAXYEAR, MAXORDINAL, days_before_year, is_leap. cbv zeta.
  intros Hy.
  destruct (Z.eqb_spec (y mod 4) 0), (Z.eqb_spec (y mod 100) 0),
    (Z.eqb_spec (y mod 400) 0); cbn [andb orb negb];
    Z.div_mod_to_equations; lia.
Qed.

(** No date up to the year 9999 has a day number above the largest. *)
Lemma ymd2ord_le_max (y m d : Z) :
  y <= MAXYEAR -> valid_month_day (MkDate y m d) = true ->
  ymd2ord y m d <= MAXORDINAL.
Proof.
  intros Hy Hv. unfold ymd2ord.
  pose proof (day_of_year_le y m d Hv). pose proof (year_end_le y Hy). lia.
Qed.

End DateCycleFacts.

(* ================================================================== *)
(** * The adapter: failures, reloading, embedded questions            *)
(* ================================================================== *)

Section AdapterFurther.
Import Py Json Adapter Spec Samples.

(** X5.  [load_data] fails before its loop when the file cannot be
    opened or parsed, when the top-level value is an object without the
    key "examples" or is a list, or when the value of "examples" is
    [null], a boolean or a number.  It then logs one ERROR record with
    the text of the exception, raises it again and leaves the adapter
    as it was. *)
Theorem load_data_fails_before_loop (read : string -> res json)
    (self : MSCoReAdapter) (log : list log_record) (e : exn) :
  read (data_path self) = Raise e
  \/ (exists d, read (data_path self) = Ok (JDict d)
        /\ d !! "examples" = None /\ e = KeyError "examples")
  \/ (exists l, read (data_path self) = Ok (JList l)
        /\ e = TypeError "list indices must be integers or slices, not str")
  \/ (exists d v, read (data_path self) = Ok (JDict d)
        /\ d !! "examples" = Some v
        /\ (v = JNull \/ (exists b, v = JBool b) \/ (exists n, v = JInt n)
            \/ (exists x, v = JFloat x))
        /\ e = TypeError ("'" ++ type_name v ++ "' object is not iterable"))
  ->
  load_data read self log
  = (Raise e, self,
     app log [(ERROR, "Error loading MSCoRe data: " ++ str_exn e)]).
Proof.
  unfold load_data, load_body.
  intros [H | [(d & H & Hd & ->) | [(l & H & ->) | (d & v & H & Hd & Hv & ->)]]];
    rewrite H; cbn [bind getitem]; try reflexivity.
  - rewrite Hd. reflexivity.
  - rewrite Hd. cbn [bind].
    destruct Hv as [-> | [[b ->] | [[n ->] | [x ->]]]]; reflexivity.
Qed.

(** The theorem above for a file that holds an empty object. *)
Lemma load_data_fails_before_loop_witness :
  load_data (fun _ => Ok (JDict ∅)) (MkAdapter "mscore.json" [sample_example]) []
  = (Raise (KeyError "examples"), MkAdapter "mscore.json" [sample_example],
     [(ERROR, "Error loading MSCoRe data: 'examples'")]).
Proof.
  apply (load_data_fails_before_loop (fun _ => Ok (JDict ∅))
           (MkAdapter "mscore.json" [sample_example]) []
           (KeyError "examples")).
  right. left. exists ∅. repeat split; reflexivity.
Defined.

(** X6.  Whatever exception the record of an item raises (a missing
    field, or an item that is no object), [load_data] stops at that
    item: the records of the items before it stay appended to the
    adapter, the items after it are not read, the exception is logged
    and raised again. *)
Theorem load_items_stop (read : string -> res json)
    (self : MSCoReAdapter) (log : list log_record) (data : json)
    (pre post : list json) (bad : json) (exs : list MSCoReExample)
    (e : exn) :
  read (data_path self) = Ok data ->
  getitem data "examples" = Ok (JList (pre ++ bad :: post)) ->
  Forall2 (fun it ex => example_of it = Ok ex) pre exs ->
  example_of bad = Raise e ->
  load_data read self log
  = (Raise e,
     MkAdapter (data_path self) (examples self ++ exs),
     app log [(ERROR, "Error loading MSCoRe data: " ++ str_exn e)]).
Proof.
  intros Hread Hex Hpre Hbad. unfold load_data, load_body.
  rewrite Hread. cbn [bind]. rewrite Hex. cbn [bind iterate].
  rewrite (load_items_app pre exs _ self Hpre). cbn [load_items].
  rewrite Hbad. reflexivity.
Qed.

(** The theorem above for a file whose second item is a number. *)
Lemma load_items_stop_witness :
  load_data
    (fun _ => Ok (JDict {[ "examples" := JList [item_full; JInt 3; item_full] ]}))
    (MkAdapter "mscore.json" []) []
  = (Raise (TypeError "'int' object is not subscriptable"),
     MkAdapter "mscore.json" [sample_example],
     [(ERROR, "Error loading MSCoRe data: 'int' object is not subscriptable")]).
Proof.
  apply (load_items_stop
           (fun _ => Ok (JDict {[ "examples"
                                  := JList [item_full; JInt 3; item_full] ]}))
           (MkAdapter "mscore.json" []) []
           (JDict {[ "examples" := JList [item_full; JInt 3; item_full] ]})
           [item_full] [item_full] (JInt 3) [sample_example]).
  - reflexivity.
  - vm_compute. reflexivity.
  - repeat constructor.
  - reflexivity.
Defined.

(** X7.  Loading an item and converting its record keeps the item's
    values: "id" and "question" under their names, "answer" under
    "expected_answer", and in the metadata "reasoning_steps", "domain"
    and "difficulty", which are [[]], "general" and "medium" when the
    item does not have them. *)
Theorem load_then_convert (d : gmap string json) (vi vq va : json) :
  d !! "id" = Some vi -> d !! "question" = Some vq ->
  d !! "answer" = Some va ->
  exists example,
    example_of (JDict d) = Ok example
    /\ let out := JDict (convert_to_maas_format example) in
       getitem out "id" = Ok vi
       /\ getitem out "question" = Ok vq
       /\ getitem out "expected_answer" = Ok va
       /\ (md <- getitem out "metadata" ;; getitem md "reasoning_steps")
          = Ok (default (JList []) (d !! "reasoning_steps"))
       /\ (md <- getitem out "metadata" ;; getitem md "domain")
          = Ok (default (JStr "general") (d !! "domain"))
       /\ (md <- getitem out "metadata" ;; getitem md "difficulty")
          = Ok (default (JStr "medium") (d !! "difficulty")).
Proof.
  intros Hi Hq Ha. eexists. split.
  - unfold example_of, getitem, get. rewrite Hi, Hq, Ha. reflexivity.
  - cbv zeta. repeat split; vm_compute; reflexivity.
Qed.

(** The theorem above for an item with the three required fields
    only. *)
Lemma load_then_convert_witness :
  exists example,
    example_of (JDict {[ "id" := JInt 7; "question" := JStr "2 + 2?";
                         "answer" := JInt 4 ]}) = Ok example
    /\ getitem (JDict (convert_to_maas_format example)) "expected_answer"
       = Ok (JInt 4)
    /\ (md <- getitem (JDict (convert_to_maas_format example)) "metadata" ;;
        getitem md "domain") = Ok (JStr "general").
Proof.
  assert (Hi : ({[ "id" := JInt 7; "question" := JStr "2 + 2?";
                   "answer" := JInt 4 ]} : gmap string json) !! "id"
               = Some (JInt 7)) by (vm_compute; reflexivity).
  assert (Hq : ({[ "id" := JInt 7; "question" := JStr "2 + 2?";
                   "answer" := JInt 4 ]} : gmap string json) !! "question"
               = Some (JStr "2 + 2?")) by (vm_compute; reflexivity).
  assert (Ha : ({[ "id" := JInt 7; "question" := JStr "2 + 2?";
                   "answer" := JInt 4 ]} : gmap string json) !! "answer"
               = Some (JInt 4)) by (vm_compute; reflexivity).
  destruct (load_then_convert _ _ _ _ Hi Hq Ha)
    as (example & Hex & _ & _ & Hans & _ & Hdom & _).
  exists example. split; [exact Hex|]. split; [exact Hans|].
  rewrite Hdom. vm_compute. reflexivity.
Defined.

Lemma load_data_success (read : string -> res json) (self : MSCoReAdapter)
    (log : list log_record) (data : json) (items : list json)
    (exs : list MSCoReExample) :
  read (data_path self) = Ok data ->
  getitem data "examples" = Ok (JList items) ->
  Forall2 (fun it ex => example_of it = Ok ex) items exs ->
  load_data read self log
  = (Ok tt,
     MkAdapter (data_path self) (examples self ++ exs),
     app log [(INFO, "Loaded " ++ str_len (examples self ++ exs)%list
                     ++ " examples from MSCoRe")]).
Proof.
  intros Hread Hex Hitems. unfold load_data, load_body.
  rewrite Hread. cbn [bind]. rewrite Hex. cbn [bind iterate].
  rewrite <- (app_nil_r items).
  rewrite (load_items_app items exs [] self Hitems). reflexivity.
Qed.

(** X8.  [load_data] does not clear the list it fills: called again on
    the adapter that [__init__] has loaded, with the file unchanged, it
    leaves every record twice. *)
Theorem load_data_twice_duplicates (read : string -> res json)
    (path : string) (log : list log_record) (data : json)
    (items : list json) (exs : list MSCoReExample) :
  read path = Ok data ->
  getitem data "examples" = Ok (JList items) ->
  Forall2 (fun it ex => example_of it = Ok ex) items exs ->
  let '(_, loaded, log1) := __init__ read path log in
  examples loaded = exs
  /\ exists log2,
       load_data read loaded log1
       = (Ok tt, MkAdapter path (exs ++ exs), log2).
Proof.
  intros Hread Hex Hitems. unfold __init__.
  rewrite (load_data_success read (MkAdapter path []) log data items exs
             Hread Hex Hitems).
  cbn [data_path examples app]. split; [reflexivity|].
  eexists.
  rewrite (load_data_success read (MkAdapter path exs) _ data items exs
             Hread Hex Hitems).
  reflexivity.
Qed.

(** The theorem above for a file of one item. *)
Lemma load_data_twice_duplicates_witness :
  exists log2,
    load_data (fun _ => Ok (JDict {[ "examples" := JList [item_full] ]}))
      (MkAdapter "mscore.json" [sample_example])
      [(INFO, "Loaded 1 examples from MSCoRe")]
    = (Ok tt, MkAdapter "mscore.json" [sample_example; sample_example], log2).
Proof.
  assert (Hex : getitem (JDict {[ "examples" := JList [item_full] ]})
                  "examples" = Ok (JList [item_full]))
    by (vm_compute; reflexivity).
  assert (Hitems : Forall2 (fun it ex => example_of it = Ok ex)
                     [item_full] [sample_example])
    by (repeat constructor).
  pose proof (load_data_twice_duplicates
                (fun _ => Ok (JDict {[ "examples" := JList [item_full] ]}))
                "mscore.json" [] _ _ _ eq_refl Hex Hitems) as H.
  assert (Hinit : __init__
                    (fun _ => Ok (JDict {[ "examples" := JList [item_full] ]}))
                    "mscore.json" []
                  = (Ok tt, MkAdapter "mscore.json" [sample_example],
                     [(INFO, "Loaded 1 examples from MSCoRe")]))
    by (vm_compute; reflexivity).
  rewrite Hinit in H. exact (proj2 H).
Defined.

Lemma lower_app (a b : string) : lower (a ++ b) = lower a ++ lower b.
Proof. induction a as [|x a IH]; simpl; [reflexivity | now rewrite IH]. Qed.

Lemma any_in_embedded (words : list string) (pre t post : string) :
  any_in words t = true -> any_in words (pre ++ t ++ post) = true.
Proof.
  rewrite !any_in_app.
  intros (w & p1 & p2 & Hin & ->).
  exists w, (pre ++ p1), (p2 ++ post). split; [exact Hin|].
  now rewrite !app_assoc_str.
Qed.

(** X9.  The analysis of a question does not depend on the case of its
    letters: two questions with the same lower-case form get the same
    six flags. *)
Theorem analyze_case_insensitive (q q' : string) :
  lower q = lower q' ->
  analyze_question_type q = analyze_question_type q'.
Proof.
  intros H. unfold analyze_question_type, _has_arithmetic, _has_temporal,
    _has_logical, _has_spatial, _has_commonsense, _requires_multi_step.
  now rewrite H.
Qed.

(** The theorem above for a question in capitals. *)
Lemma analyze_case_insensitive_witness :
  analyze_question_type "WHAT IS THE SUM OF 5 AND 3?"
  = analyze_question_type "what is the sum of 5 and 3?".
Proof.
  apply (analyze_case_insensitive "WHAT IS THE SUM OF 5 AND 3?"
           "what is the sum of 5 and 3?").
  vm_compute. reflexivity.
Defined.

(** X10.  A flag that is set for a question stays set when text is
    written before and after the question: the analysis looks for
    substrings, so a longer text can only add flags. *)
Theorem analyze_flags_monotone (q pre post flag : string) :
  analyze_question_type q !! flag = Some true ->
  analyze_question_type (pre ++ q ++ post) !! flag = Some true.
Proof.
  intros H.
  assert (Hcat : exists words, In (flag, words) categories).
  { unfold analyze_question_type in H.
    repeat (rewrite lookup_insert in H; case_decide;
            [subst; eexists; unfold categories; simpl; eauto 10|]).
    rewrite lookup_singleton in H. case_decide; [|discriminate].
    subst. eexists. unfold categories. simpl. eauto 10. }
  destruct Hcat as [words Hin].
  rewrite (analyze_flag q _ _ Hin) in H.
  rewrite (analyze_flag (pre ++ q ++ post) _ _ Hin).
  injection H as H. f_equal.
  rewrite !lower_app. now apply any_in_embedded.
Qed.

(** The theorem above for "5 + 3" inside a sentence. *)
Lemma analyze_flags_monotone_witness :
  analyze_question_type ("Tell me: " ++ "5 + 3" ++ ", please")
    !! "has_arithmetic" = Some true.
Proof.
  apply (analyze_flags_monotone "5 + 3" "Tell me: " ", please"
           "has_arithmetic").
  vm_compute. reflexivity.
Defined.

End AdapterFurther.

(* ================================================================== *)
(** * The agent: errors, outcomes, intervals, the calendar            *)
(* ================================================================== *)

Section TemporalFurther.
Import Py Re ReSem Json Datetime Calendar DateCycle Temporal Spec Samples.

Lemma float_not_zero (x : float) :
  PrimFloat.eqb x 0%float = false -> x <> 0%float.
Proof. intros H E. rewrite E in H. vm_compute in H. discriminate. Qed.

(** The five values the confidence can take. *)
#[warnings="-inexact-float"]
Lemma confidence_values (query : string) (result : option string) :
  let c := _calculate_confidence query result in
  match result with
  | None => c = 0.0%float
  | Some text =>
      if contains "Error" text || contains "Could not" text
      then c = 0.0%float
      else c = 0.7%float \/ c = 0.7999999999999999%float
           \/ c = 0.8999999999999999%float \/ c = 0.9999999999999999%float
  end.
Proof.
  cbv zeta. unfold _calculate_confidence. destruct result as [text|];
    [|reflexivity].
  destruct (contains "Error" text || contains "Could not" text);
    [reflexivity|].
  cbv zeta.
  destruct (any_in ["year"; "month"; "day"; "Monday"; "Tuesday"] text);
    destruct (search digits_pattern text); vm_compute; auto.
Qed.

(** X11.  The confidence is 0.0 exactly when there is no result or the
    result holds "Error" or "Could not"; it never reaches 1.0 (the sum
    0.7 + 0.2 + 0.1 of binary64 numbers is below 1), and a confidence
    that is not 0.0 is at least 0.7. *)
#[warnings="-inexact-float"]
Theorem confidence_zero_iff (query : string) (result : option string) :
  let c := _calculate_confidence query result in
  (c = 0.0%float <->
   result = None
   \/ exists text, result = Some text
        /\ (contains "Error" text = true \/ contains "Could not" text = true))
  /\ PrimFloat.ltb c 1.0%float = true
  /\ (PrimFloat.eqb c 0.0%float = true \/ PrimFloat.leb 0.7%float c = true).
Proof.
  cbv zeta. pose proof (confidence_values query result) as H. cbv zeta in H.
  destruct result as [text|].
  - destruct (contains "Error" text || contains "Could not" text) eqn:E.
    + rewrite H. split; [|split; [reflexivity | left; reflexivity]].
      split; [|reflexivity]. intros _. right. exists text.
      split; [reflexivity|]. now apply orb_true_iff.
    + apply orb_false_iff in E as [E1 E2].
      split; [|destruct H as [-> | [-> | [-> | ->]]];
               (split; [reflexivity | right; reflexivity])].
      split.
      * intros Hc. exfalso.
        destruct H as [H|[H|[H|H]]]; rewrite H in Hc;
          revert Hc; apply float_not_zero; reflexivity.
      * intros [Hn|(t & [= <-] & [Ht|Ht])]; congruence.
  - rewrite H. split; [|split; [reflexivity | left; reflexivity]].
    split; [now left | reflexivity].
Qed.

Lemma contains_prefixed (w rest : string) : contains w (w ++ rest) = true.
Proof. apply contains_app. now exists EmptyString, rest. Qed.

Lemma error_confidence (query : string) (e : exn) :
  _calculate_confidence query (catch (Raise e)) = 0.0%float.
Proof.
  unfold catch, _calculate_confidence.
  change ("Error in temporal operation: " ++ str_exn e)
    with ("Error" ++ (" in temporal operation: " ++ str_exn e)).
  now rewrite contains_prefixed.
Qed.

(** X12.  An exception raised by the selected operation does not leave
    [process]: the response carries the operation, the result "Error in
    temporal operation: " followed by the text of the exception, and
    the confidence 0.0. *)
Theorem process_reports_errors (input_data : gmap string json)
    (q : string) (e : exn) :
  query_of input_data = JStr q ->
  (_identify_operation q = "age_calculation" /\ _calculate_age q = Raise e)
  \/ (_identify_operation q = "date_addition" /\ _add_to_date q = Raise e)
  \/ (_identify_operation q = "time_interval"
      /\ _calculate_interval q = Raise e)
  \/ (_identify_operation q = "day_of_week"
      /\ _find_day_of_week q = Raise e)
  \/ (_identify_operation q = "leap_year_check"
      /\ _check_leap_year q = Raise e) ->
  process input_data
  = Ok (response (_identify_operation q)
          (Some ("Error in temporal operation: " ++ str_exn e))
          0.0%float).
Proof.
  intros Hq H. rewrite (process_str _ _ Hq).
  assert (Hx : _execute_operation (_identify_operation q) q
                 (context_of input_data) = catch (Raise e)).
  { unfold _execute_operation.
    destruct H as [[-> H]|[[-> H]|[[-> H]|[[-> H]|[-> H]]]]];
      cbn [String.eqb Ascii.eqb Bool.eqb]; now rewrite H. }
  rewrite Hx, error_confidence. reflexivity.
Qed.

(** The theorem above for a weekday question about 30 February. *)
Lemma process_reports_errors_witness :
  process {[ "query" := JStr "which weekday is 30/02/2023" ]}
  = Ok (response "day_of_week"
          (Some "Error in temporal operation: day is out of range for month")
          0.0%float).
Proof.
  assert (Hq : query_of {[ "query" := JStr "which weekday is 30/02/2023" ]}
               = JStr "which weekday is 30/02/2023")
    by (vm_compute; reflexivity).
  assert (Hop : _identify_operation "which weekday is 30/02/2023"
                = "day_of_week") by (vm_compute; reflexivity).
  assert (Hraise : _find_day_of_week "which weekday is 30/02/2023"
                   = Raise (ValueError "day is out of range for month"))
    by (vm_compute; reflexivity).
  rewrite (process_reports_errors _ _ _ Hq
             (or_intror (or_intror (or_intror (or_introl
                (conj Hop Hraise)))))).
  rewrite Hop. reflexivity.
Defined.

(** X13.  [process] reads nothing of its input but the query: the
    context it fetches reaches no operation, so two inputs with the
    same query get the same response. *)
Theorem process_reads_only_query (input1 input2 : gmap string json) :
  query_of input1 = query_of input2 ->
  process input1 = process input2.
Proof.
  intros H. unfold process. rewrite H.
  destruct (query_of input2); reflexivity.
Qed.

(** The theorem above for an input with a context and one without. *)
Lemma process_reads_only_query_witness :
  process {[ "query" := JStr "is 2024 a leap year";
             "context" := JDict {[ "today" := JStr "01/01/2030" ]} ]}
  = process {[ "query" := JStr "is 2024 a leap year" ]}.
Proof.
  apply (process_reads_only_query
           {[ "query" := JStr "is 2024 a leap year";
              "context" := JDict {[ "today" := JStr "01/01/2030" ]} ]}
           {[ "query" := JStr "is 2024 a leap year" ]}).
  vm_compute. reflexivity.
Defined.

Lemma new_valid (y m d : Z) (dt : datetime) :
  Datetime.new y m d = Ok dt -> valid_month_day dt = true.
Proof.
  intros H. apply new_ok_iff in H as (-> & _ & Hm & Hd).
  unfold valid_month_day. cbn [year month day]. lia.
Qed.

(** X14.  Whatever [_add_to_date] returns is one of two messages or a
    formatted calendar date: the unit that the duration pattern
    captures is always "day", "month" or "year", so the branch that
    answers "Unknown unit: ..." is never taken. *)
Theorem add_to_date_outcomes (q text : string) :
  _add_to_date q = Ok text ->
  text = "No date found in query"
  \/ text = "No duration specified"
  \/ exists dt, text = strftime_B_d_Y dt /\ valid_month_day dt = true.
Proof.
  destruct (search date_pattern q) as [dm|] eqn:Hdm.
  2:{ unfold _add_to_date. rewrite Hdm. intros [= <-]. now left. }
  destruct (search duration_pattern (lower q)) as [um|] eqn:Hum.
  2:{ unfold _add_to_date.
      destruct (date_match_groups q dm Hdm) as (L1 & L2 & L3).
      rewrite Hdm. rewrite !int_short by lia. cbn [bind].
      destruct (Datetime.new _ _ _) as [base|]; [|discriminate].
      cbn [bind]. rewrite Hum. intros [= <-]. right. now left. }
  rewrite (add_to_date_steps q dm um Hdm Hum). cbv zeta.
  destruct (duration_match _ _ Hum) as [_ Hunit].
  destruct (Datetime.new _ _ _) as [base|] eqn:Hbase; [|discriminate].
  destruct (int (group 1 um)) as [amount|]; [|discriminate].
  cbn [bind]. intros H. right. right.
  destruct Hunit as [E | [E | E]]; rewrite E in H; clear E.
  - change (String.eqb "day" "day") with true in H. cbv iota in H.
    apply format_inv in H as (dt & Hdt & ->). exists dt.
    split; [reflexivity|].
    unfold timedelta in Hdt.
    destruct (999999999 <? Z.abs amount); [discriminate|].
    cbn [bind] in Hdt. unfold Datetime.add in Hdt.
    destruct ((1 <=? toordinal base + amount)
              && (toordinal base + amount <=? MAXORDINAL)); [|discriminate].
    injection Hdt as <-. apply ord2ymd_checked.
  - change (String.eqb "month" "day") with false in H.
    change (String.eqb "month" "month") with true in H. cbv iota in H.
    apply format_inv in H as (dt & Hdt & ->). exists dt.
    split; [reflexivity | exact (new_valid _ _ _ _ Hdt)].
  - change (String.eqb "year" "day") with false in H.
    change (String.eqb "year" "month") with false in H.
    change (String.eqb "year" "year") with true in H. cbv iota in H.
    apply format_inv in H as (dt & Hdt & ->). exists dt.
    split; [reflexivity | exact (new_valid _ _ _ _ Hdt)].
Qed.

(** The theorem above for one month after 31 January. *)
Lemma add_to_date_outcomes_witness :
  "February 28, 2023" = "No date found in query"
  \/ "February 28, 2023" = "No duration specified"
  \/ exists dt,
       "February 28, 2023" = strftime_B_d_Y dt /\ valid_month_day dt = true.
Proof.
  apply (add_to_date_outcomes "1 month after 31/01/2023" "February 28, 2023").
  vm_compute. reflexivity.
Defined.

(** X15.  Whatever [_find_day_of_week] returns is "Could not extract
    date" or the English name of one of the seven days. *)
Theorem find_day_of_week_outcomes (q text : string) :
  _find_day_of_week q = Ok text ->
  text = "Could not extract date" \/ In text day_names.
Proof.
  unfold _find_day_of_week.
  destruct (search date_pattern q) as [dm|]; [|intros [= <-]; now left].
  destruct (int (group 1 dm)) as [d|]; [|discriminate].
  destruct (int (group 2 dm)) as [m|]; [|discriminate].
  destruct (int (group 3 dm)) as [y|]; [|discriminate].
  cbn [bind]. destruct (Datetime.new y m d) as [dt|]; [|discriminate].
  cbn [bind]. intros [= <-]. right. unfold strftime_A, weekday.
  apply nth_In.
  pose proof (Z.mod_pos_bound (toordinal dt + 6) 7 ltac:(lia)).
  change (length day_names) with 7%nat. lia.
Qed.

(** The theorem above for 4 November 2026, a Wednesday. *)
Lemma find_day_of_week_outcomes_witness :
  "Wednesday" = "Could not extract date" \/ In "Wednesday" day_names.
Proof.
  apply (find_day_of_week_outcomes "what weekday is 04/11/2026" "Wednesday").
  vm_compute. reflexivity.
Defined.

Lemma interval_of_dates (q : string) (d0 d1 : list string)
    (rest : list (list string)) (date1 date2 : datetime) :
  findall date_pattern q = d0 :: d1 :: rest ->
  date_of_groups d0 = Ok date1 ->
  date_of_groups d1 = Ok date2 ->
  let d := Z.abs (toordinal date2 - toordinal date1) in
  _calculate_interval q
  = Ok (interval_text (d / 365) ((d mod 365) / 30) ((d mod 365) mod 30)).
Proof.
  intros Hf H1 H2 d.
  unfold _calculate_interval. rewrite Hf, H1. cbn [bind]. rewrite H2.
  cbn [bind]. unfold sub_days. fold d. f_equal.
  apply interval_parts.
  - apply Z.div_pos; [apply Z.abs_nonneg | lia].
  - apply Z.div_pos; [|lia]. apply Z.mod_pos_bound. lia.
  - apply Z.mod_pos_bound. lia.
Qed.

(** X16.  The years, months and days that [_calculate_interval] reports
    add up to the distance in days when a year counts 365 days and a
    month 30; the days stay below 30, and the months can reach 12 (a
    distance of 360 to 364 days more than whole years). *)
Theorem interval_parts_add_up (q : string) (d0 d1 : list string)
    (rest : list (list string)) (date1 date2 : datetime) :
  findall date_pattern q = d0 :: d1 :: rest ->
  date_of_groups d0 = Ok date1 ->
  date_of_groups d1 = Ok date2 ->
  exists years months days,
    _calculate_interval q = Ok (interval_text years months days)
    /\ years * 365 + months * 30 + days
       = Z.abs (toordinal date2 - toordinal date1)
    /\ 0 <= years /\ 0 <= months <= 12 /\ 0 <= days <= 29
    /\ (months = 12 -> days <= 4).
Proof.
  intros Hf H1 H2.
  set (d := Z.abs (toordinal date2 - toordinal date1)).
  exists (d / 365), ((d mod 365) / 30), ((d mod 365) mod 30).
  split; [exact (interval_of_dates q d0 d1 rest date1 date2 Hf H1 H2)|].
  pose proof (Z.abs_nonneg (toordinal date2 - toordinal date1)) as Hd.
  fold d in Hd. clearbody d.
  Z.div_mod_to_equations. lia.
Qed.

(** The theorem above for two dates 364 days apart: twelve months and
    four days. *)
Lemma interval_parts_add_up_witness :
  exists years months days,
    _calculate_interval "between 01/01/2023 and 31/12/2023"
    = Ok (interval_text years months days)
    /\ years * 365 + months * 30 + days = 364
    /\ 0 <= years /\ 0 <= months <= 12 /\ 0 <= days <= 29
    /\ (months = 12 -> days <= 4).
Proof.
  assert (Hf : findall date_pattern "between 01/01/2023 and 31/12/2023"
               = [["01"; "01"; "2023"]; ["31"; "12"; "2023"]])
    by (vm_compute; reflexivity).
  assert (H1 : date_of_groups ["01"; "01"; "2023"] = Ok (MkDate 2023 1 1))
    by (vm_compute; reflexivity).
  assert (H2 : date_of_groups ["31"; "12"; "2023"] = Ok (MkDate 2023 12 31))
    by (vm_compute; reflexivity).
  exact (interval_parts_add_up _ _ _ _ _ _ Hf H1 H2).
Defined.

(** X17.  The interval does not depend on the order of the two dates:
    a query that holds them the other way round gets the same answer. *)
Theorem interval_symmetric (q q' : string) (d0 d1 : list string)
    (rest rest' : list (list string)) (date1 date2 : datetime) :
  findall date_pattern q = d0 :: d1 :: rest ->
  findall date_pattern q' = d1 :: d0 :: rest' ->
  date_of_groups d0 = Ok date1 ->
  date_of_groups d1 = Ok date2 ->
  _calculate_interval q = _calculate_interval q'.
Proof.
  intros Hf Hf' H1 H2.
  rewrite (interval_of_dates q d0 d1 rest date1 date2 Hf H1 H2).
  rewrite (interval_of_dates q' d1 d0 rest' date2 date1 Hf' H2 H1).
  cbv zeta.
  replace (Z.abs (toordinal date1 - toordinal date2))
    with (Z.abs (toordinal date2 - toordinal date1)) by lia.
  reflexivity.
Qed.

(** The theorem above for two dates written in both orders. *)
Lemma interval_symmetric_witness :
  _calculate_interval "between 01/01/2020 and 15/03/2021"
  = _calculate_interval "from 15/03/2021 back to 01/01/2020".
Proof.
  assert (Hf : findall date_pattern "between 01/01/2020 and 15/03/2021"
               = [["01"; "01"; "2020"]; ["15"; "03"; "2021"]])
    by (vm_compute; reflexivity).
  assert (Hf' : findall date_pattern "from 15/03/2021 back to 01/01/2020"
                = [["15"; "03"; "2021"]; ["01"; "01"; "2020"]])
    by (vm_compute; reflexivity).
  assert (H1 : date_of_groups ["01"; "01"; "2020"] = Ok (MkDate 2020 1 1))
    by (vm_compute; reflexivity).
  assert (H2 : date_of_groups ["15"; "03"; "2021"] = Ok (MkDate 2021 3 15))
    by (vm_compute; reflexivity).
  exact (interval_symmetric _ _ _ _ _ _ _ _ Hf Hf' H1 H2).
Defined.

(** X18.  Adding zero days gives the date back: when the query holds a
    calendar date and a duration of 0 days, [_add_to_date] answers with
    that very date, formatted. *)
Theorem add_zero_days_identity (q : string) (dm um : rmatch)
    (base : datetime) :
  search date_pattern q = Some dm ->
  Datetime.new (int_value (group 3 dm)) (int_value (group 2 dm))
               (int_value (group 1 dm)) = Ok base ->
  search duration_pattern (lower q) = Some um ->
  group 2 um = "day" ->
  int (group 1 um) = Ok 0 ->
  _add_to_date q = Ok (strftime_B_d_Y base).
Proof.
  intros Hdm Hbase Hum Hunit Hint.
  rewrite (add_to_date_steps q dm um Hdm Hum). cbv zeta.
  rewrite Hbase, Hint, Hunit. cbn [bind].
  change (String.eqb "day" "day") with true. cbv iota.
  pose proof (new_valid _ _ _ _ Hbase) as Hv.
  apply new_ok_iff in Hbase as (-> & Hy & Hm & Hd).
  pose proof (ymd2ord_le_max _ _ _ (proj2 Hy) Hv) as Hmax.
  rewrite add_days_exact; cbn [year month day]; try lia.
  - rewrite format_ok. unfold toordinal. cbn [year month day].
    rewrite Z.add_0_r. now rewrite (ord2ymd_ymd2ord _ _ _ Hv).
  - unfold toordinal. cbn [year month day]. lia.
Qed.

(** The theorem above for 29 February 2024. *)
Lemma add_zero_days_identity_witness :
  _add_to_date "what is 0 days after 29/02/2024" = Ok "February 29, 2024".
Proof.
  assert (Hdm : search date_pattern "what is 0 days after 29/02/2024"
                = Some (MkMatch ["29"; "02"; "2024"] 10))
    by (vm_compute; reflexivity).
  assert (Hum : search duration_pattern
                  (lower "what is 0 days after 29/02/2024")
                = Some (MkMatch ["0"; "day"] 6))
    by (vm_compute; reflexivity).
  assert (Hbase : Datetime.new 2024 2 29 = Ok (MkDate 2024 2 29))
    by (vm_compute; reflexivity).
  rewrite (add_zero_days_identity _ _ _ _ Hdm Hbase Hum eq_refl eq_refl).
  vm_compute. reflexivity.
Defined.

Lemma app_inv_head_str (s a b : string) : s ++ a = s ++ b -> a = b.
Proof.
  induction s as [|x s IH]; simpl; [auto|]. intros [= H]. auto.
Qed.

(** X19.  The leap-year rule of [_check_leap_year] is the calendar's:
    for a year that [datetime] accepts (1 to 9999) the answer is "is a
    leap year" exactly when 29 February of that year is a date.  (The
    pattern also matches "0000", a year [datetime] does not have.) *)
Theorem leap_answer_matches_calendar (q : string) (m : rmatch) :
  search year_pattern q = Some m ->
  let y := int_value (group 1 m) in
  MINYEAR <= y <= MAXYEAR ->
  (_check_leap_year q = Ok (str_int y ++ " is a leap year") <->
   Datetime.new y 2 29 = Ok (MkDate y 2 29)).
Proof.
  intros Hs y Hy. rewrite (check_leap_year_found q m Hs). fold y.
  unfold leap_sentence.
  assert (Hleap : gregorian_leap y <-> is_leap y = true).
  { unfold gregorian_leap, is_leap.
    destruct (Z.eqb_spec (y mod 4) 0), (Z.eqb_spec (y mod 100) 0),
      (Z.eqb_spec (y mod 400) 0); cbn [andb orb negb];
      split; intros H; try discriminate; try reflexivity; try tauto;
      try lia; exfalso; Z.div_mod_to_equations; lia. }
  assert (Hnew : Datetime.new y 2 29 = Ok (MkDate y 2 29)
                 <-> is_leap y = true).
  { rewrite new_ok_iff. unfold days_in_month.
    change (2 =? 2) with true. cbn [andb].
    destruct (is_leap y).
    - split; [reflexivity|]. intros _. repeat split; lia.
    - split; [|discriminate]. intros (_ & _ & _ & H).
      vm_compute in H. destruct H as [_ H]. now destruct H. }
  rewrite Hnew, <- Hleap.
  destruct (decide (gregorian_leap y)) as [H|H].
  - split; [intros _; exact H | reflexivity].
  - split; [|tauto]. intros [= E].
    apply app_inv_head_str in E. discriminate E.
Qed.

(** The theorem above for the year 1900, which is no leap year. *)
Lemma leap_answer_matches_calendar_witness :
  _check_leap_year "was 1900 a leap year" = Ok "1900 is a leap year"
  <-> Datetime.new 1900 2 29 = Ok (MkDate 1900 2 29).
Proof.
  assert (Hs : search year_pattern "was 1900 a leap year"
               = Some (MkMatch ["1900"] 4)) by (vm_compute; reflexivity).
  apply (leap_answer_matches_calendar "was 1900 a leap year" _ Hs).
  vm_compute. split; discriminate.
Defined.

End TemporalFurther.

